(** * tensorflow/core/data/service/worker_client.cc

    A shallow embedding of the data-service worker client: the bandwidth
    throttle [ByteBlockChecker], the gRPC and the local data-transfer
    clients, the factory registered for the gRPC protocol and the
    [DataServiceWorkerClient] session that selects and drives a transport.

    Conventions.
    - [int64_t] values are integers of [Z]; arithmetic on them is written
      with its two's-complement wrap-around ([wrap64]).
    - [double] values are IEEE-754 binary64 numbers, taken from the
      Standard Library's [SpecFloat] (precision 53, [emax] 1024).
    - Calls are made one at a time: a call runs to completion before the
      next one starts, so a method is a state transformer.
    - Whatever a method receives from outside the file (the clock, the
      RPC stub, the local-worker registry, the credentials factory, the
      tensor parser) is an argument of its model; whatever it does to the
      outside (sleeping, issuing an RPC, cancelling a call context,
      invoking a worker) is returned next to the new state. *)

From Stdlib Require Import ZArith Lia Bool SpecFloat.
From stdpp Require Import gmap strings list pretty.

Local Open Scope Z_scope.

(** ** Machine arithmetic *)

Module Int64.

Definition min_signed : Z := - 2 ^ 63.
Definition max_signed : Z := 2 ^ 63 - 1.

Definition in_range (z : Z) : Prop := min_signed <= z <= max_signed.

(** Two's-complement reduction of an integer to the [int64_t] range. *)
Definition wrap64 (z : Z) : Z := (z + 2 ^ 63) mod 2 ^ 64 - 2 ^ 63.

Definition add (a b : Z) : Z := wrap64 (a + b).
Definition sub (a b : Z) : Z := wrap64 (a - b).

End Int64.

Module Double.

Definition prec : Z := 53.
Definition emax : Z := 1024.

Definition double : Type := spec_float.

Definition mul : double -> double -> double := SFmul prec emax.
Definition div : double -> double -> double := SFdiv prec emax.

(** Conversion of an [int64_t] to [double] (round to nearest, ties to
    even). *)
Definition of_int64 (z : Z) : double := binary_normalize prec emax z 0 false.

(** The literal [8.0]. *)
Definition eight : double := of_int64 8.

(** [1000.0 * 1000.0]. *)
Definition million : double := mul (of_int64 1000) (of_int64 1000).

(** Truncation of a finite value towards zero. *)
Definition trunc (d : double) : option Z :=
  match d with
  | S754_zero _ => Some 0
  | S754_finite s m e =>
      let a := match e with
               | Z0 => Zpos m
               | Zpos p => Zpos m * 2 ^ Zpos p
               | Zneg p => Zpos m / 2 ^ Zpos p
               end in
      Some (if s then - a else a)
  | S754_infinity _ | S754_nan => None
  end.

(** Conversion of a [double] to [int64_t]: the value truncated towards
    zero.  For NaN, the infinities and values outside the [int64_t] range
    C++ leaves the conversion undefined; the model takes what the x86-64
    conversion instruction delivers there, the least [int64_t]. *)
Definition to_int64 (d : double) : Z :=
  match trunc d with
  | Some z =>
      if (Int64.min_signed <=? z) && (z <=? Int64.max_signed) then z
      else Int64.min_signed
  | None => Int64.min_signed
  end.

End Double.

(** ** ByteBlockChecker *)

(** The fields of the throttle.  The class is declared in
    worker_client.h; its fields are the four [AddAndSleepCheck] uses, taken
    as [int64_t] like the values that flow into them. *)
Record ByteBlockChecker : Type := mkByteBlockChecker {
  sum_total_bytes_ : Z;
  prev_call_time_micros_ : Z;
  check_block_size_ : Z;
  max_bandwidth_bps_ : Z
}.

(** [sum_total_bytes_ * 8.0 / (max_bandwidth_bps_ / (1000.0 * 1000.0))],
    converted to [int64_t]. *)
Definition expected_sleep_time (sum max_bandwidth_bps : Z) : Z :=
  Double.to_int64
    (Double.div
       (Double.mul (Double.of_int64 sum) Double.eight)
       (Double.div (Double.of_int64 max_bandwidth_bps) Double.million)).

(** What one call of [AddAndSleepCheck] hands back: the throttle after
    the call and the argument of [SleepForMicroseconds], if it slept. *)
Record CheckOutcome : Type := mkCheckOutcome {
  checker_after : ByteBlockChecker;
  slept : option Z
}.

(** [ByteBlockChecker::AddAndSleepCheck(total_bytes)].  [now1] is what
    [EnvTime::NowMicros()] returns for [curr_time_micros], [now2] what it
    returns after the sleep. *)
Definition AddAndSleepCheck (c : ByteBlockChecker) (total_bytes now1 now2 : Z)
  : CheckOutcome :=
  let sum := Int64.add (sum_total_bytes_ c) total_bytes in
  if check_block_size_ c <=? sum then
    let expected := expected_sleep_time sum (max_bandwidth_bps_ c) in
    let curr_time_micros := now1 in
    let elapsed := Int64.sub curr_time_micros (prev_call_time_micros_ c) in
    let sleep :=
      if elapsed <? expected then Some (Int64.sub expected elapsed) else None in
    {| checker_after :=
         {| sum_total_bytes_ := 0;
            prev_call_time_micros_ := now2;
            check_block_size_ := check_block_size_ c;
            max_bandwidth_bps_ := max_bandwidth_bps_ c |};
       slept := sleep |}
  else
    {| checker_after :=
         {| sum_total_bytes_ := sum;
            prev_call_time_micros_ := prev_call_time_micros_ c;
            check_block_size_ := check_block_size_ c;
            max_bandwidth_bps_ := max_bandwidth_bps_ c |};
       slept := None |}.

(** One recorded transfer: the bytes and the two clock readings of the
    call. *)
Definition Transfer : Type := (Z * Z * Z)%type.

(** [AddAndSleepCheck] called once for each transfer of [ts], one after
    the other: the throttle afterwards and the sleeps performed, in
    order. *)
Fixpoint AddAndSleepChecks (c : ByteBlockChecker) (ts : list Transfer)
  : ByteBlockChecker * list Z :=
  match ts with
  | [] => (c, [])
  | (bytes, t1, t2) :: ts' =>
      let o := AddAndSleepCheck c bytes t1 t2 in
      let '(c', ds) := AddAndSleepChecks (checker_after o) ts' in
      (c', match slept o with Some d => d :: ds | None => ds end)
  end.

(** The transfers of [ts] keep the running sum, started at [sum], below
    [block] and within [int64_t]. *)
Fixpoint stays_below (sum block : Z) (ts : list Transfer) : Prop :=
  match ts with
  | [] => True
  | (bytes, _, _) :: ts' =>
      Int64.in_range (sum + bytes) /\ sum + bytes < block /\
      stays_below (sum + bytes) block ts'
  end.

(** The bytes of [ts] added up. *)
Definition total_bytes (ts : list Transfer) : Z :=
  fold_right (fun t acc => fst (fst t) + acc) 0 ts.

(** ** Status values *)

(** [tensorflow::error::Code]; [grpc::StatusCode] has the same members. *)
Inductive Code : Type :=
  | OK | CANCELLED | UNKNOWN | INVALID_ARGUMENT | DEADLINE_EXCEEDED
  | NOT_FOUND | ALREADY_EXISTS | PERMISSION_DENIED | RESOURCE_EXHAUSTED
  | FAILED_PRECONDITION | ABORTED | OUT_OF_RANGE | UNIMPLEMENTED
  | INTERNAL | UNAVAILABLE | DATA_LOSS | UNAUTHENTICATED.

Definition Code_eqb (a b : Code) : bool :=
  match a, b with
  | OK, OK | CANCELLED, CANCELLED | UNKNOWN, UNKNOWN
  | INVALID_ARGUMENT, INVALID_ARGUMENT
  | DEADLINE_EXCEEDED, DEADLINE_EXCEEDED | NOT_FOUND, NOT_FOUND
  | ALREADY_EXISTS, ALREADY_EXISTS | PERMISSION_DENIED, PERMISSION_DENIED
  | RESOURCE_EXHAUSTED, RESOURCE_EXHAUSTED
  | FAILED_PRECONDITION, FAILED_PRECONDITION | ABORTED, ABORTED
  | OUT_OF_RANGE, OUT_OF_RANGE | UNIMPLEMENTED, UNIMPLEMENTED
  | INTERNAL, INTERNAL | UNAVAILABLE, UNAVAILABLE | DATA_LOSS, DATA_LOSS
  | UNAUTHENTICATED, UNAUTHENTICATED => true
  | _, _ => false
  end.

Record Status : Type := mkStatus {
  code : Code;
  error_message : string
}.

Definition ok (s : Status) : bool := Code_eqb (code s) OK.

Definition Status_OK : Status := mkStatus OK "".

Module errors.
Definition Cancelled (msg : string) : Status := mkStatus CANCELLED msg.
Definition Internal (msg : string) : Status := mkStatus INTERNAL msg.
Definition NotFound (msg : string) : Status := mkStatus NOT_FOUND msg.
End errors.

(** [grpc::Status]. *)
Record grpc_Status : Type := mk_grpc_Status {
  grpc_error_code : Code;
  grpc_error_message : string
}.

Definition grpc_ok (s : grpc_Status) : bool := Code_eqb (grpc_error_code s) OK.

(** [msg] has [s] as a contiguous part. *)
Definition contains (msg s : string) : Prop :=
  exists pre suf : string, msg = pre +:+ s +:+ suf.

(** ** Messages and configuration *)

Record GetElementRequest : Type := mkGetElementRequest {
  task_id : Z
}.

(** [DataTransferClient::Config], in the order the session fills it:
    [{protocol_, address_, max_bandwidth_bps_}]. *)
Record Config : Type := mkConfig {
  config_protocol : string;
  config_address : string;
  config_max_bandwidth_bps : Z
}.

(** The process-wide throttle state: the throttles allocated so far (a
    [shared_ptr] is an index into [throttles]) and the file-static
    [g_byte_block_checker]. *)
Record Process : Type := mkProcess {
  throttles : list ByteBlockChecker;
  g_byte_block_checker : option nat
}.

(** The state of the process at start-up. *)
Definition Process_init : Process :=
  {| throttles := []; g_byte_block_checker := None |}.

(** What a call can end in when it may go through a null pointer. *)
Inductive Completion (A : Type) : Type :=
  | Returns (a : A)
  | NullDereference.
Arguments Returns {A} a.
Arguments NullDereference {A}.

(** What a registered factory hands back: the status, the client written
    to [*out] (if any), the process afterwards and the argument of each
    [ByteBlockChecker] it constructed. *)
Record FactoryOutcome (Client : Type) : Type := mkFactoryOutcome {
  factory_status : Status;
  factory_out : option Client;
  factory_process : Process;
  factory_made : list Z
}.
Arguments mkFactoryOutcome {Client} _ _ _ _.
Arguments factory_status {Client} _.
Arguments factory_out {Client} _.
Arguments factory_process {Client} _.
Arguments factory_made {Client} _.

(** ** Messages of the worker service *)

Inductive ElementCase (TensorProto CompressedElement : Type) : Type :=
  | kCompressed (compressed : CompressedElement)
  | kUncompressed (components : list TensorProto)
  | ELEMENT_NOT_SET.
Arguments kCompressed {TensorProto CompressedElement} compressed.
Arguments kUncompressed {TensorProto CompressedElement} components.
Arguments ELEMENT_NOT_SET {TensorProto CompressedElement}.

Record GetElementResponse (TensorProto CompressedElement : Type) : Type :=
  mkGetElementResponse {
    resp_end_of_sequence : bool;
    resp_skip_task : bool;
    element_case : ElementCase TensorProto CompressedElement
  }.
Arguments mkGetElementResponse {TensorProto CompressedElement} _ _ _.
Arguments resp_end_of_sequence {TensorProto CompressedElement} _.
Arguments resp_skip_task {TensorProto CompressedElement} _.
Arguments element_case {TensorProto CompressedElement} _.

(** ** What the file takes from elsewhere *)

Class Externals : Type := {
  (** The wire form of one component, the compressed element of a
      response, the in-memory tensor and the channel credentials. *)
  TensorProto : Type;
  CompressedElement : Type;
  Tensor : Type;
  Credentials : Type;
  (** [Tensor()], the tensor [emplace_back()] creates. *)
  Tensor_default : Tensor;
  (** The [DT_VARIANT] scalar holding a compressed element. *)
  Tensor_variant : CompressedElement -> Tensor;
  (** [t.FromProto(p)]: whether parsing succeeded, and [t] afterwards. *)
  FromProto : Tensor -> TensorProto -> bool * Tensor;
  (** [grpc_util::WrapError]. *)
  WrapError : string -> grpc_Status -> Status;
  (** [CredentialsFactory::CreateClientCredentials]: the status and the
      credentials it leaves in [*out]. *)
  CreateClientCredentials : string -> Status * Credentials;
  (** The constructor [ByteBlockChecker(max_bandwidth_bps)]. *)
  ByteBlockChecker_new : Z -> ByteBlockChecker;
  (** The protocol names. *)
  kGrpcTransferProtocol : string;
  kLocalTransferProtocol : string;
  (** [ByteSizeLong()] of a request and of a response. *)
  req_ByteSizeLong : GetElementRequest -> Z;
  resp_ByteSizeLong : GetElementResponse TensorProto CompressedElement -> Z
}.

Section WorkerClient.

Context `{E : Externals}.

Record GetElementResult : Type := mkGetElementResult {
  end_of_sequence : bool;
  skip : bool;
  components : list Tensor
}.

(** A local worker, seen through [GetElementResult(&req, &result)]. *)
Definition DataServiceWorkerImpl : Type :=
  GetElementRequest -> GetElementResult -> Status * GetElementResult.

(** What a call of [GetElement] meets outside the client: the address of
    its [grpc::ClientContext], what the stub answers if it is called, the
    two clock readings of the throttle, and [LocalWorkers::Get]. *)
Record Env : Type := mkEnv {
  ctx : nat;
  stub_GetElement : grpc_Status * GetElementResponse TensorProto CompressedElement;
  now1 : Z;
  now2 : Z;
  LocalWorkers_Get : string -> option DataServiceWorkerImpl
}.

(** What a call of [GetElement] did to the outside. *)
Record Effects : Type := mkEffects {
  rpcs : list (nat * GetElementRequest);
  sleeps : list Z;
  worker_calls : list GetElementRequest
}.

Definition no_effects : Effects :=
  {| rpcs := []; sleeps := []; worker_calls := [] |}.

(** ** GrpcDataTransferClient *)

Record GrpcDataTransferClient : Type := mkGrpcDataTransferClient {
  active_contexts_ : gset nat;
  byte_block_checker_ : option nat;
  grpc_cancelled_ : bool
}.

Record GrpcOutcome : Type := mkGrpcOutcome {
  grpc_status : Status;
  grpc_result : GetElementResult;
  grpc_client : GrpcDataTransferClient;
  grpc_throttles : list ByteBlockChecker;
  grpc_effects : Effects
}.

(** The loop over [resp.uncompressed().components()]: each component gets
    a fresh entry at the back of [result.components] and is parsed into
    it; the loop is left at the first component that does not parse. *)
Fixpoint parse_components (ps : list TensorProto) (out : list Tensor)
  : bool * list Tensor :=
  match ps with
  | [] => (true, out)
  | p :: ps' =>
      let '(parsed, t) := FromProto Tensor_default p in
      if parsed then parse_components ps' (out ++ [t])
      else (false, out ++ [t])
  end.

(** The throttle step of [GetElement]: nothing without a throttle.  (A
    [shared_ptr] keeps its throttle alive, so the lookup of a non-null
    pointer finds it; the model leaves the heap alone otherwise.) *)
Definition throttle_step (p : option nat) (heap : list ByteBlockChecker)
    (bytes t1 t2 : Z) : list ByteBlockChecker * list Z :=
  match p with
  | None => (heap, [])
  | Some l =>
      match heap !! l with
      | None => (heap, [])
      | Some c =>
          let o := AddAndSleepCheck c bytes t1 t2 in
          (<[l := checker_after o]> heap,
           match slept o with Some d => [d] | None => [] end)
      end
  end.

(** [GrpcDataTransferClient::GetElement]. *)
Definition Grpc_GetElement (c : GrpcDataTransferClient)
    (heap : list ByteBlockChecker) (env : Env)
    (req : GetElementRequest) (result : GetElementResult) : GrpcOutcome :=
  if grpc_cancelled_ c then
    {| grpc_status := errors.Cancelled "Client was cancelled.";
       grpc_result := result; grpc_client := c; grpc_throttles := heap;
       grpc_effects := no_effects |}
  else
    let c1 := {| active_contexts_ := {[ ctx env ]} ∪ active_contexts_ c;
                 byte_block_checker_ := byte_block_checker_ c;
                 grpc_cancelled_ := grpc_cancelled_ c |} in
    let '(s, resp) := stub_GetElement env in
    let '(heap1, slept1) :=
      throttle_step (byte_block_checker_ c) heap
        (Int64.wrap64 (resp_ByteSizeLong resp + req_ByteSizeLong req))
        (now1 env) (now2 env) in
    let eff := {| rpcs := [(ctx env, req)]; sleeps := slept1;
                  worker_calls := [] |} in
    let result1 := {| end_of_sequence := resp_end_of_sequence resp;
                      skip := resp_skip_task resp;
                      components := components result |} in
    let finish (r : GetElementResult) :=
      let c2 := {| active_contexts_ := active_contexts_ c1 ∖ {[ ctx env ]};
                   byte_block_checker_ := byte_block_checker_ c1;
                   grpc_cancelled_ := grpc_cancelled_ c1 |} in
      {| grpc_status :=
           if grpc_ok s then Status_OK
           else WrapError "Failed to get element" s;
         grpc_result := r; grpc_client := c2; grpc_throttles := heap1;
         grpc_effects := eff |} in
    match element_case resp with
    | kCompressed z =>
        finish {| end_of_sequence := end_of_sequence result1;
                  skip := skip result1;
                  components := components result1 ++ [Tensor_variant z] |}
    | kUncompressed ps =>
        let '(parsed, out) := parse_components ps (components result1) in
        let r := {| end_of_sequence := end_of_sequence result1;
                    skip := skip result1;
                    components := out |} in
        if parsed then finish r
        else
          {| grpc_status := errors.Internal "Failed to parse tensor.";
             grpc_result := r; grpc_client := c1; grpc_throttles := heap1;
             grpc_effects := eff |}
    | ELEMENT_NOT_SET => finish result1
    end.

(** [GrpcDataTransferClient::TryCancel]: the client afterwards and the
    call contexts it cancelled. *)
Definition Grpc_TryCancel (c : GrpcDataTransferClient)
  : GrpcDataTransferClient * gset nat :=
  ({| active_contexts_ := active_contexts_ c;
      byte_block_checker_ := byte_block_checker_ c;
      grpc_cancelled_ := true |},
   active_contexts_ c).

(** The factory [GrpcTransferClientRegistrar] registers for
    [kGrpcTransferProtocol]. *)
Definition Grpc_factory (config : Config) (proc : Process)
  : FactoryOutcome GrpcDataTransferClient :=
  let '(st, credentials) := CreateClientCredentials (config_protocol config) in
  if negb (ok st) then
    {| factory_status := st; factory_out := None;
       factory_process := proc; factory_made := [] |}
  else
      let '(proc1, made) :=
        match g_byte_block_checker proc with
        | None =>
            if 0 <? config_max_bandwidth_bps config then
              ({| throttles :=
                    throttles proc ++
                    [ByteBlockChecker_new (config_max_bandwidth_bps config)];
                  g_byte_block_checker := Some (length (throttles proc)) |},
               [config_max_bandwidth_bps config])
            else (proc, [])
        | Some _ => (proc, [])
        end in
      {| factory_status := Status_OK;
         factory_out :=
           Some {| active_contexts_ := ∅;
                   byte_block_checker_ := g_byte_block_checker proc1;
                   grpc_cancelled_ := false |};
         factory_process := proc1; factory_made := made |}.

(** ** LocalDataTransferClient *)

Record LocalDataTransferClient : Type := mkLocalDataTransferClient {
  worker_address_ : string;
  local_cancelled_ : bool
}.

Record LocalOutcome : Type := mkLocalOutcome {
  local_status : Status;
  local_result : GetElementResult;
  local_effects : Effects
}.

(** [LocalDataTransferClient::VerifyClientIsNotCancelled]; the message is
    [absl::Substitute] applied to its format. *)
Definition VerifyClientIsNotCancelled (c : LocalDataTransferClient) : Status :=
  if local_cancelled_ c then
    errors.Cancelled
      ("Client for worker " +:+ worker_address_ c +:+ " has been cancelled.")
  else Status_OK.

(** [LocalDataTransferClient::GetWorker]; the task id is printed in
    decimal. *)
Definition GetWorker (c : LocalDataTransferClient)
    (get : string -> option DataServiceWorkerImpl) (req : GetElementRequest)
  : Status + DataServiceWorkerImpl :=
  match get (worker_address_ c) with
  | None =>
      inl (errors.Cancelled
             ("Local worker at address " +:+ worker_address_ c +:+
              " is no longer available; cancel request for task " +:+
              pretty (task_id req) +:+ "."))
  | Some worker => inr worker
  end.

(** [LocalDataTransferClient::GetElement]. *)
Definition Local_GetElement (c : LocalDataTransferClient) (env : Env)
    (req : GetElementRequest) (result : GetElementResult) : LocalOutcome :=
  let s := VerifyClientIsNotCancelled c in
  if negb (ok s) then
    {| local_status := s; local_result := result;
       local_effects := no_effects |}
  else
    match GetWorker c (LocalWorkers_Get env) req with
    | inl err =>
        {| local_status := err; local_result := result;
           local_effects := no_effects |}
    | inr worker =>
        let '(st, r) := worker req result in
        {| local_status := st; local_result := r;
           local_effects := {| rpcs := []; sleeps := [];
                               worker_calls := [req] |} |}
    end.

(** [LocalDataTransferClient::TryCancel]. *)
Definition Local_TryCancel (c : LocalDataTransferClient)
  : LocalDataTransferClient :=
  {| worker_address_ := worker_address_ c; local_cancelled_ := true |}.

(** The factory [LocalTransferClientRegistrar] registers for
    [kLocalTransferProtocol]. *)
Definition Local_factory (config : Config) : LocalDataTransferClient :=
  {| worker_address_ := config_address config; local_cancelled_ := false |}.

(** ** DataTransferClient *)

(** The two classes that override [DataTransferClient]. *)
Inductive DataTransferClient : Type :=
  | GrpcClient (c : GrpcDataTransferClient)
  | LocalClient (c : LocalDataTransferClient).

Record Outcome : Type := mkOutcome {
  out_status : Status;
  out_result : GetElementResult;
  out_client : DataTransferClient;
  out_throttles : list ByteBlockChecker;
  out_effects : Effects
}.

(** The virtual call [client->GetElement(req, result)]. *)
Definition GetElement (c : DataTransferClient) (heap : list ByteBlockChecker)
    (env : Env) (req : GetElementRequest) (result : GetElementResult)
  : Outcome :=
  match c with
  | GrpcClient g =>
      let o := Grpc_GetElement g heap env req result in
      {| out_status := grpc_status o; out_result := grpc_result o;
         out_client := GrpcClient (grpc_client o);
         out_throttles := grpc_throttles o;
         out_effects := grpc_effects o |}
  | LocalClient l =>
      let o := Local_GetElement l env req result in
      {| out_status := local_status o; out_result := local_result o;
         out_client := LocalClient l; out_throttles := heap;
         out_effects := local_effects o |}
  end.

(** The virtual call [client->TryCancel()]: the client afterwards and the
    call contexts it cancelled. *)
Definition TryCancel (c : DataTransferClient) : DataTransferClient * gset nat :=
  match c with
  | GrpcClient g => let '(g', cancelled) := Grpc_TryCancel g in
                    (GrpcClient g', cancelled)
  | LocalClient l => (LocalClient (Local_TryCancel l), ∅)
  end.

(** The two registrations of this file, in the order of their static
    objects. *)
Inductive Factory : Type := GrpcFactory | LocalFactory.

Definition registered_factories : list (string * Factory) :=
  [(kGrpcTransferProtocol, GrpcFactory); (kLocalTransferProtocol, LocalFactory)].

(** Modelled from the spec: [DataTransferClient::Build] is defined in
    data_transfer.cc; it looks the factory up by protocol name and invokes
    it, and fails with NotFound if no factory is registered for the
    name. *)
Definition Build (name : string) (config : Config) (proc : Process)
  : FactoryOutcome DataTransferClient :=
  match find (fun e => String.eqb (fst e) name) registered_factories with
  | Some (_, GrpcFactory) =>
      let o := Grpc_factory config proc in
      {| factory_status := factory_status o;
         factory_out := GrpcClient <$> factory_out o;
         factory_process := factory_process o;
         factory_made := factory_made o |}
  | Some (_, LocalFactory) =>
      {| factory_status := Status_OK;
         factory_out := Some (LocalClient (Local_factory config));
         factory_process := proc; factory_made := [] |}
  | None =>
      {| factory_status :=
           errors.NotFound
             ("No data transfer client factory has been registered for name "
              +:+ name);
         factory_out := None; factory_process := proc; factory_made := [] |}
  end.

(** ** DataServiceWorkerClient *)

Record DataServiceWorkerClient : Type := mkDataServiceWorkerClient {
  address_ : string;
  protocol_ : string;
  transfer_protocol_ : string;
  session_max_bandwidth_bps_ : Z;
  client_ : option DataTransferClient
}.

(** Modelled from the spec: the constructor is defined in
    worker_client.h; it stores its four arguments, and the transfer client
    is created lazily, so [client_] starts out null. *)
Definition DataServiceWorkerClient_new
    (address protocol transfer_protocol : string) (max_bandwidth_bps : Z)
  : DataServiceWorkerClient :=
  {| address_ := address; protocol_ := protocol;
     transfer_protocol_ := transfer_protocol;
     session_max_bandwidth_bps_ := max_bandwidth_bps;
     client_ := None |}.

(** [DataServiceWorkerClient::GetDataTransferProtocol]. *)
Definition GetDataTransferProtocol (s : DataServiceWorkerClient)
    (get : string -> option DataServiceWorkerImpl) : string :=
  if String.eqb (transfer_protocol_ s) kGrpcTransferProtocol
     && bool_decide (is_Some (get (address_ s)))
  then kLocalTransferProtocol
  else transfer_protocol_ s.

(** [DataServiceWorkerClient::EnsureInitialized]. *)
Definition EnsureInitialized (s : DataServiceWorkerClient)
    (get : string -> option DataServiceWorkerImpl) (proc : Process)
  : Status * DataServiceWorkerClient * Process * list Z :=
  match client_ s with
  | Some _ => (Status_OK, s, proc, [])
  | None =>
      let o :=
        Build (GetDataTransferProtocol s get)
          {| config_protocol := protocol_ s;
             config_address := address_ s;
             config_max_bandwidth_bps := session_max_bandwidth_bps_ s |}
          proc in
      if negb (ok (factory_status o)) then
        (factory_status o, s, factory_process o, factory_made o)
      else
        (Status_OK,
         {| address_ := address_ s; protocol_ := protocol_ s;
            transfer_protocol_ := transfer_protocol_ s;
            session_max_bandwidth_bps_ := session_max_bandwidth_bps_ s;
            client_ := factory_out o |},
         factory_process o, factory_made o)
  end.

Record SessionOutcome : Type := mkSessionOutcome {
  session_status : Status;
  session_result : GetElementResult;
  session_after : DataServiceWorkerClient;
  session_process : Process;
  session_effects : Effects
}.

(** [DataServiceWorkerClient::GetElement]. *)
Definition Session_GetElement (s : DataServiceWorkerClient) (proc : Process)
    (env : Env) (req : GetElementRequest) (result : GetElementResult)
  : Completion SessionOutcome :=
  let '(st, s1, proc1, _) := EnsureInitialized s (LocalWorkers_Get env) proc in
  if negb (ok st) then
    Returns {| session_status := st; session_result := result;
               session_after := s1; session_process := proc1;
               session_effects := no_effects |}
  else
    match client_ s1 with
    | None => NullDereference
    | Some c =>
        let o := GetElement c (throttles proc1) env req result in
        Returns
          {| session_status := out_status o; session_result := out_result o;
             session_after :=
               {| address_ := address_ s1; protocol_ := protocol_ s1;
                  transfer_protocol_ := transfer_protocol_ s1;
                  session_max_bandwidth_bps_ := session_max_bandwidth_bps_ s1;
                  client_ := Some (out_client o) |};
             session_process :=
               {| throttles := out_throttles o;
                  g_byte_block_checker := g_byte_block_checker proc1 |};
             session_effects := out_effects o |}
    end.

(** [DataServiceWorkerClient::TryCancel]: [client_->TryCancel()]. *)
Definition Session_TryCancel (s : DataServiceWorkerClient)
  : Completion (DataServiceWorkerClient * gset nat) :=
  match client_ s with
  | None => NullDereference
  | Some c =>
      let '(c', cancelled) := TryCancel c in
      Returns
        ({| address_ := address_ s; protocol_ := protocol_ s;
            transfer_protocol_ := transfer_protocol_ s;
            session_max_bandwidth_bps_ := session_max_bandwidth_bps_ s;
            client_ := Some c' |},
         cancelled)
  end.

(** ** Sequences of calls *)

(** A call made on a transfer client. *)
Inductive Call : Type :=
  | CallGetElement (env : Env) (req : GetElementRequest)
                   (result : GetElementResult)
  | CallTryCancel.

(** A transfer client together with the throttles of the process. *)
Definition ClientState : Type := (DataTransferClient * list ByteBlockChecker)%type.

Definition call (st : ClientState) (k : Call) : ClientState :=
  match k with
  | CallGetElement env req result =>
      let o := GetElement (fst st) (snd st) env req result in
      (out_client o, out_throttles o)
  | CallTryCancel => (fst (TryCancel (fst st)), snd st)
  end.

(** The calls of [ks] made one after the other. *)
Definition calls (ks : list Call) (st : ClientState) : ClientState :=
  fold_left call ks st.

Definition is_cancelled (c : DataTransferClient) : bool :=
  match c with
  | GrpcClient g => grpc_cancelled_ g
  | LocalClient l => local_cancelled_ l
  end.

(** The gRPC factory run once for each configuration of [configs], one
    after the other: the process afterwards and the arguments of the
    [ByteBlockChecker] constructions, in order. *)
Fixpoint create_clients (configs : list Config) (proc : Process)
  : Process * list Z :=
  match configs with
  | [] => (proc, [])
  | config :: configs' =>
      let o := Grpc_factory config proc in
      let '(proc2, made') := create_clients configs' (factory_process o) in
      (proc2, factory_made o ++ made')
  end.

(** The client tracks no call context: no call is in flight and no handle
    was left behind, so [TryCancel] has no [grpc::ClientContext] to go
    through. *)
Definition tracks_no_context (c : DataTransferClient) : Prop :=
  match c with
  | GrpcClient g => active_contexts_ g = ∅
  | LocalClient _ => True
  end.

(** The creation that constructs the throttle when the process has
    none: credentials are granted and the bandwidth is positive. *)
Definition constructs_throttle (config : Config) : bool :=
  ok (fst (CreateClientCredentials (config_protocol config)))
  && (0 <? config_max_bandwidth_bps config).

End WorkerClient.

(** ** A concrete instance of the externals

    Components are optional integers on the wire, [None] being a
    component that does not parse; a failed parse leaves the tensor as it
    was. *)

Inductive SampleTensor : Type :=
  | Empty
  | Variant (compressed : string)
  | Dense (value : Z).

Definition sample_FromProto (t : SampleTensor) (p : option Z)
  : bool * SampleTensor :=
  match p with
  | Some v => (true, Dense v)
  | None => (false, t)
  end.

Definition sample_WrapError (msg : string) (s : grpc_Status) : Status :=
  mkStatus (grpc_error_code s) (msg +:+ ": " +:+ grpc_error_message s).

Definition sample_ByteBlockChecker_new (max_bandwidth_bps : Z)
  : ByteBlockChecker :=
  {| sum_total_bytes_ := 0; prev_call_time_micros_ := 0;
     check_block_size_ := 1000000; max_bandwidth_bps_ := max_bandwidth_bps |}.

Definition sample_resp_ByteSizeLong (r : GetElementResponse (option Z) string)
  : Z :=
  match element_case r with
  | kCompressed z => 4 + Z.of_nat (String.length z)
  | kUncompressed ps => 4 + 8 * Z.of_nat (length ps)
  | ELEMENT_NOT_SET => 4
  end.

Definition sample : Externals :=
  {| TensorProto := option Z;
     CompressedElement := string;
     Tensor := SampleTensor;
     Credentials := unit;
     Tensor_default := Empty;
     Tensor_variant := Variant;
     FromProto := sample_FromProto;
     WrapError := sample_WrapError;
     CreateClientCredentials := fun _ => (Status_OK, tt);
     ByteBlockChecker_new := sample_ByteBlockChecker_new;
     kGrpcTransferProtocol := "grpc";
     kLocalTransferProtocol := "local";
     req_ByteSizeLong := fun _ => 8;
     resp_ByteSizeLong := sample_resp_ByteSizeLong |}.

(** Inputs for the concrete instance. *)

Definition sample_request : GetElementRequest := {| task_id := 42 |}.

Definition sample_result : @GetElementResult sample :=
  @mkGetElementResult sample false false [].

(** A gRPC client in its initial state, without a throttle. *)
Definition sample_client : GrpcDataTransferClient :=
  {| active_contexts_ := ∅; byte_block_checker_ := None;
     grpc_cancelled_ := false |}.

(** A call whose context lives at address 7. *)
Definition sample_env (s : grpc_Status)
    (resp : GetElementResponse (option Z) string) : @Env sample :=
  @mkEnv sample 7%nat (s, resp) 0 0 (fun _ => None).

(** A response of three components, the second of which does not
    parse. *)
Definition sample_malformed : GetElementResponse (option Z) string :=
  {| resp_end_of_sequence := false; resp_skip_task := false;
     element_case := kUncompressed [Some 1; None; Some 3] |}.

(** The end-of-sequence response. *)
Definition sample_end : GetElementResponse (option Z) string :=
  {| resp_end_of_sequence := true; resp_skip_task := false;
     element_case := ELEMENT_NOT_SET |}.

Definition grpc_OK : grpc_Status := mk_grpc_Status OK "".

Definition grpc_UNAVAILABLE : grpc_Status :=
  mk_grpc_Status UNAVAILABLE "Socket closed".

(** A throttle with a block of 1,000,000 bytes and a bandwidth of
    1,000,000, last reset at time [prev]. *)
Definition sample_throttle (prev : Z) : ByteBlockChecker :=
  {| sum_total_bytes_ := 0; prev_call_time_micros_ := prev;
     check_block_size_ := 1000000; max_bandwidth_bps_ := 1000000 |}.

(** A gRPC client that points to the first throttle of the process. *)
Definition sample_throttled_client : GrpcDataTransferClient :=
  {| active_contexts_ := ∅; byte_block_checker_ := Some 0%nat;
     grpc_cancelled_ := false |}.

(** A worker that reports the end of the sequence. *)
Definition sample_worker : @DataServiceWorkerImpl sample :=
  fun _ result =>
    (Status_OK, @mkGetElementResult sample true false (components result)).

(** A call made while [sample_worker] is registered for every address. *)
Definition sample_env_local : @Env sample :=
  @mkEnv sample 7%nat (grpc_OK, sample_end) 0 0 (fun _ => Some sample_worker).

(** * Properties *)

(** ** Machine arithmetic *)

Lemma wrap64_in_range (z : Z) : Int64.in_range z -> Int64.wrap64 z = z.
Proof.
  unfold Int64.in_range, Int64.min_signed, Int64.max_signed, Int64.wrap64.
  intros Hz. rewrite Z.mod_small; lia.
Qed.

Lemma wrap64_range (z : Z) : Int64.in_range (Int64.wrap64 z).
Proof.
  unfold Int64.in_range, Int64.min_signed, Int64.max_signed, Int64.wrap64.
  pose proof (Z.mod_pos_bound (z + 2 ^ 63) (2 ^ 64)). lia.
Qed.

(** ** The throttle *)

Lemma AddAndSleepCheck_below (c : ByteBlockChecker) (bytes t1 t2 : Z) :
  Int64.add (sum_total_bytes_ c) bytes < check_block_size_ c ->
  AddAndSleepCheck c bytes t1 t2 =
  {| checker_after :=
       {| sum_total_bytes_ := Int64.add (sum_total_bytes_ c) bytes;
          prev_call_time_micros_ := prev_call_time_micros_ c;
          check_block_size_ := check_block_size_ c;
          max_bandwidth_bps_ := max_bandwidth_bps_ c |};
     slept := None |}.
Proof.
  intros Hlt. unfold AddAndSleepCheck.
  destruct (Z.leb_spec (check_block_size_ c)
              (Int64.add (sum_total_bytes_ c) bytes)); [lia | reflexivity].
Qed.

Lemma AddAndSleepCheck_reached (c : ByteBlockChecker) (bytes t1 t2 : Z) :
  check_block_size_ c <= Int64.add (sum_total_bytes_ c) bytes ->
  AddAndSleepCheck c bytes t1 t2 =
  let sum := Int64.add (sum_total_bytes_ c) bytes in
  let expected := expected_sleep_time sum (max_bandwidth_bps_ c) in
  let elapsed := Int64.sub t1 (prev_call_time_micros_ c) in
  {| checker_after :=
       {| sum_total_bytes_ := 0;
          prev_call_time_micros_ := t2;
          check_block_size_ := check_block_size_ c;
          max_bandwidth_bps_ := max_bandwidth_bps_ c |};
     slept := if elapsed <? expected
              then Some (Int64.sub expected elapsed) else None |}.
Proof.
  intros Hle. unfold AddAndSleepCheck.
  destruct (Z.leb_spec (check_block_size_ c)
              (Int64.add (sum_total_bytes_ c) bytes)); [reflexivity | lia].
Qed.

(** C4.  [AddAndSleepCheck(bytes)] adds [bytes] to the running sum.  While
    the new sum is below the block size the call does not sleep.  Once it
    reaches the block size, the expected time
    [sum * 8.0 / (max_bandwidth_bps / 1000000)] is compared with the time
    elapsed since the last reset, and the call sleeps, for exactly the
    shortfall, if and only if the expected time exceeds the elapsed time.
    With a bandwidth of 1,000,000 and a block of 1,000,000 bytes, one call
    that records 2,000,000 bytes on a fresh throttle has an expected time
    of 16,000,000 microseconds and sleeps 16,000,000 minus the elapsed
    time.  The expected time is the binary64 value of the formula,
    truncated to [int64_t]: at a bandwidth of 3 the 2,000,000 bytes give
    5,333,333,333,333 microseconds, 7 bytes give 18,666,666; 1,000,000
    bytes at 125,000,000 give 64,000; 123,456,789 bytes at 987,654,321
    give 999,999; and 3 bytes at 7,000,000 give 3, slept in full less the
    elapsed time, and not at all once 3 microseconds have elapsed. *)
Theorem AddAndSleepCheck_accounting (c : ByteBlockChecker) (bytes t1 t2 : Z) :
  let sum := Int64.add (sum_total_bytes_ c) bytes in
  let expected :=
    Double.to_int64
      (Double.div
         (Double.mul (Double.of_int64 sum) (Double.of_int64 8))
         (Double.div (Double.of_int64 (max_bandwidth_bps_ c))
            (Double.mul (Double.of_int64 1000) (Double.of_int64 1000)))) in
  let elapsed := Int64.sub t1 (prev_call_time_micros_ c) in
  let o := AddAndSleepCheck c bytes t1 t2 in
  (Int64.in_range (sum_total_bytes_ c + bytes) ->
   sum = sum_total_bytes_ c + bytes) /\
  (sum < check_block_size_ c ->
   slept o = None /\ sum_total_bytes_ (checker_after o) = sum) /\
  (check_block_size_ c <= sum ->
   (slept o <> None <-> expected > elapsed) /\
   (expected > elapsed -> slept o = Some (Int64.sub expected elapsed)) /\
   (Int64.in_range (t1 - prev_call_time_micros_ c) ->
    elapsed = t1 - prev_call_time_micros_ c) /\
   (Int64.in_range (expected - elapsed) ->
    Int64.sub expected elapsed = expected - elapsed)) /\
  (forall prev u1 u2 : Z,
     let fresh := {| sum_total_bytes_ := 0; prev_call_time_micros_ := prev;
                     check_block_size_ := 1000000;
                     max_bandwidth_bps_ := 1000000 |} in
     expected_sleep_time 2000000 1000000 = 16000000 /\
     (0 <= u1 - prev < 16000000 ->
      slept (AddAndSleepCheck fresh 2000000 u1 u2)
      = Some (16000000 - (u1 - prev)))) /\
  (let throttle bw :=
     {| sum_total_bytes_ := 0; prev_call_time_micros_ := 0;
        check_block_size_ := 1; max_bandwidth_bps_ := bw |} in
   slept (AddAndSleepCheck (throttle 3) 2000000 0 0) = Some 5333333333333 /\
   slept (AddAndSleepCheck (throttle 3) 7 0 0) = Some 18666666 /\
   slept (AddAndSleepCheck (throttle 125000000) 1000000 0 0) = Some 64000 /\
   slept (AddAndSleepCheck (throttle 987654321) 123456789 0 0)
   = Some 999999 /\
   slept (AddAndSleepCheck (throttle 7000000) 3 1 0) = Some 2 /\
   slept (AddAndSleepCheck (throttle 7000000) 3 3 0) = None).
Proof.
  cbv zeta.
  change (Double.to_int64
            (Double.div
               (Double.mul
                  (Double.of_int64 (Int64.add (sum_total_bytes_ c) bytes))
                  (Double.of_int64 8))
               (Double.div (Double.of_int64 (max_bandwidth_bps_ c))
                  (Double.mul (Double.of_int64 1000) (Double.of_int64 1000)))))
    with (expected_sleep_time (Int64.add (sum_total_bytes_ c) bytes)
            (max_bandwidth_bps_ c)).
  split; [| split; [| split; [| split]]];
    [| | | | vm_compute; repeat split].
  - intros Hr. unfold Int64.add. now apply wrap64_in_range.
  - intros Hlt. rewrite AddAndSleepCheck_below by assumption. now split.
  - intros Hle. rewrite AddAndSleepCheck_reached by assumption. cbv zeta.
    cbn [slept].
    destruct (Z.ltb_spec (Int64.sub t1 (prev_call_time_micros_ c))
                (expected_sleep_time (Int64.add (sum_total_bytes_ c) bytes)
                   (max_bandwidth_bps_ c))) as [Hlt | Hge].
    + repeat split; try congruence; try lia.
      * intros Hr. unfold Int64.sub. now apply wrap64_in_range.
      * intros Hr. unfold Int64.sub at 1. now apply wrap64_in_range.
    + repeat split; try congruence; try lia.
      * intros Hr. unfold Int64.sub. now apply wrap64_in_range.
      * intros Hr. unfold Int64.sub at 1. now apply wrap64_in_range.
  - intros prev u1 u2.
    assert (He : expected_sleep_time 2000000 1000000 = 16000000)
      by (vm_compute; reflexivity).
    split; [exact He |].
    intros Hu.
    assert (Hs : Int64.add 0 2000000 = 2000000) by (vm_compute; reflexivity).
    rewrite AddAndSleepCheck_reached
      by (cbn [sum_total_bytes_ check_block_size_]; rewrite Hs; lia).
    cbv zeta. cbn [slept sum_total_bytes_ max_bandwidth_bps_
                   prev_call_time_micros_].
    rewrite Hs, He.
    assert (Hel : Int64.sub u1 prev = u1 - prev).
    { unfold Int64.sub. apply wrap64_in_range.
      unfold Int64.in_range, Int64.min_signed, Int64.max_signed. lia. }
    rewrite Hel.
    destruct (Z.ltb_spec (u1 - prev) 16000000); [| lia].
    f_equal. unfold Int64.sub. apply wrap64_in_range.
    unfold Int64.in_range, Int64.min_signed, Int64.max_signed. lia.
Qed.

Lemma AddAndSleepCheck_accounting_witness :
  let fresh := {| sum_total_bytes_ := 0; prev_call_time_micros_ := 0;
                  check_block_size_ := 1000000;
                  max_bandwidth_bps_ := 1000000 |} in
  slept (AddAndSleepCheck fresh 2000000 1000000 17000000) = Some 15000000 /\
  slept (AddAndSleepCheck fresh 500 1000000 17000000) = None.
Proof.
  cbv zeta. split.
  - destruct (AddAndSleepCheck_accounting
                {| sum_total_bytes_ := 0; prev_call_time_micros_ := 0;
                   check_block_size_ := 1000000;
                   max_bandwidth_bps_ := 1000000 |} 2000000 1000000 17000000)
      as (_ & _ & _ & H & _).
    destruct (H 0 1000000 17000000) as [_ H']. apply H'. lia.
  - destruct (AddAndSleepCheck_accounting
                {| sum_total_bytes_ := 0; prev_call_time_micros_ := 0;
                   check_block_size_ := 1000000;
                   max_bandwidth_bps_ := 1000000 |} 500 1000000 17000000)
      as (_ & H & _).
    apply H. vm_compute. reflexivity.
Defined.

(** A call that crosses the block size after the expected time has already
    passed: 2,000,000 bytes are accumulated, the sum is set back to zero,
    and no sleep is performed. *)
Lemma AddAndSleepCheck_reset_without_sleep :
  let c := {| sum_total_bytes_ := 0; prev_call_time_micros_ := 0;
              check_block_size_ := 1000000;
              max_bandwidth_bps_ := 1000000 |} in
  let o := AddAndSleepCheck c 2000000 20000000 20000000 in
  Int64.add (sum_total_bytes_ c) 2000000 = 2000000 /\
  sum_total_bytes_ (checker_after o) = 0 /\
  slept o = None /\
  ~ (sum_total_bytes_ (checker_after o) = 0 <-> slept o <> None).
Proof.
  cbv zeta.
  assert (Hs : slept (AddAndSleepCheck
                        {| sum_total_bytes_ := 0; prev_call_time_micros_ := 0;
                           check_block_size_ := 1000000;
                           max_bandwidth_bps_ := 1000000 |}
                        2000000 20000000 20000000) = None)
    by (vm_compute; reflexivity).
  repeat split; try (vm_compute; reflexivity); try exact Hs.
  intros [Hreset _]. apply Hreset; [vm_compute; reflexivity | exact Hs].
Qed.

(** C5, amended.  A call sets the accumulated byte count back to zero
    exactly when the sum it has just increased reaches or exceeds the
    block size, whether or not the call then sleeps: below the block size
    the increased sum is kept and the call does not sleep; at or above it
    the sum is zero afterwards.  So every call that sleeps resets the sum,
    and a call resets it without sleeping whenever the expected time does
    not exceed the elapsed time. *)
Theorem AddAndSleepCheck_reset (c : ByteBlockChecker) (bytes t1 t2 : Z) :
  let sum := Int64.add (sum_total_bytes_ c) bytes in
  let expected := expected_sleep_time sum (max_bandwidth_bps_ c) in
  let elapsed := Int64.sub t1 (prev_call_time_micros_ c) in
  let o := AddAndSleepCheck c bytes t1 t2 in
  (check_block_size_ c <= sum ->
   sum_total_bytes_ (checker_after o) = 0 /\
   prev_call_time_micros_ (checker_after o) = t2) /\
  (sum < check_block_size_ c ->
   sum_total_bytes_ (checker_after o) = sum /\
   prev_call_time_micros_ (checker_after o) = prev_call_time_micros_ c /\
   slept o = None) /\
  (slept o <> None -> sum_total_bytes_ (checker_after o) = 0) /\
  (check_block_size_ c <= sum -> expected <= elapsed ->
   sum_total_bytes_ (checker_after o) = 0 /\ slept o = None).
Proof.
  cbv zeta.
  destruct (Z.le_gt_cases (check_block_size_ c)
              (Int64.add (sum_total_bytes_ c) bytes)) as [Hle | Hlt].
  - rewrite AddAndSleepCheck_reached by assumption. cbv zeta.
    cbn [checker_after slept sum_total_bytes_ prev_call_time_micros_].
    split; [now split |]. split; [lia |]. split; [reflexivity |].
    intros _ Hexp. split; [reflexivity |].
    destruct (Z.ltb_spec (Int64.sub t1 (prev_call_time_micros_ c))
                (expected_sleep_time (Int64.add (sum_total_bytes_ c) bytes)
                   (max_bandwidth_bps_ c))); [lia | reflexivity].
  - rewrite AddAndSleepCheck_below by assumption.
    cbn [checker_after slept sum_total_bytes_ prev_call_time_micros_].
    repeat split; try lia; try congruence.
Qed.

Lemma AddAndSleepCheck_reset_witness :
  let c := {| sum_total_bytes_ := 0; prev_call_time_micros_ := 0;
              check_block_size_ := 1000000;
              max_bandwidth_bps_ := 1000000 |} in
  let o := AddAndSleepCheck c 2000000 20000000 20000000 in
  sum_total_bytes_ (checker_after o) = 0 /\ slept o = None.
Proof.
  cbv zeta.
  destruct (AddAndSleepCheck_reset
              {| sum_total_bytes_ := 0; prev_call_time_micros_ := 0;
                 check_block_size_ := 1000000;
                 max_bandwidth_bps_ := 1000000 |} 2000000 20000000 20000000)
    as (_ & _ & _ & H).
  apply H; vm_compute; intros Hc; discriminate Hc.
Defined.

Section Properties.

Context `{E : Externals}.

(** ** Parsing the components of a response *)

(** The tensors a list of components that all parse is turned into. *)
Lemma parse_components_all_parsed (ps : list TensorProto) (out : list Tensor) :
  Forall (fun p => fst (FromProto Tensor_default p) = true) ps ->
  parse_components ps out
  = (true, out ++ map (fun p => snd (FromProto Tensor_default p)) ps).
Proof.
  intros Hall. revert out.
  induction Hall as [| p ps Hp _ IH]; intros out; cbn [parse_components map].
  - now rewrite app_nil_r.
  - destruct (FromProto Tensor_default p) as [parsed t] eqn:Hf.
    cbn [fst snd] in *. subst parsed.
    rewrite IH, <- app_assoc. reflexivity.
Qed.

(** The loop stops at the first component that does not parse, leaving
    behind what it parsed so far and the entry made for that component. *)
Lemma parse_components_failure
    (good : list TensorProto) (bad : TensorProto) (rest : list TensorProto)
    (out : list Tensor) :
  Forall (fun p => fst (FromProto Tensor_default p) = true) good ->
  fst (FromProto Tensor_default bad) = false ->
  parse_components (good ++ bad :: rest) out
  = (false,
     out ++ map (fun p => snd (FromProto Tensor_default p)) good
         ++ [snd (FromProto Tensor_default bad)]).
Proof.
  intros Hall Hbad. revert out.
  induction Hall as [| p ps Hp _ IH]; intros out;
    cbn [parse_components map app].
  - destruct (FromProto Tensor_default bad) as [parsed t].
    cbn [fst snd] in *. subst parsed. reflexivity.
  - destruct (FromProto Tensor_default p) as [parsed t] eqn:Hf.
    cbn [fst snd] in *. subst parsed.
    rewrite IH, <- app_assoc. reflexivity.
Qed.

(** Whether the loop succeeds does not depend on what the result held. *)
Lemma parse_components_fst (ps : list TensorProto) (out out' : list Tensor) :
  fst (parse_components ps out) = fst (parse_components ps out').
Proof.
  revert out out'. induction ps as [| p ps IH]; intros out out';
    cbn [parse_components]; [reflexivity |].
  destruct (FromProto Tensor_default p) as [[] t]; [apply IH | reflexivity].
Qed.

(** ** The gRPC client *)

(** Erasing a handle undoes its insertion. *)
Lemma erase_insert (handles : gset nat) (h : nat) :
  ({[ h ]} ∪ handles) ∖ {[ h ]} = handles ∖ {[ h ]}.
Proof.
  apply set_eq. intros x.
  rewrite !elem_of_difference, elem_of_union, elem_of_singleton. tauto.
Qed.

Lemma erase_not_elem (handles : gset nat) (h : nat) : h ∉ handles ∖ {[ h ]}.
Proof.
  rewrite elem_of_difference, elem_of_singleton. tauto.
Qed.

(** A cancelled client answers at once. *)
Lemma Grpc_GetElement_cancelled (c : GrpcDataTransferClient)
    (heap : list ByteBlockChecker) (env : Env)
    (req : GetElementRequest) (result : GetElementResult) :
  grpc_cancelled_ c = true ->
  Grpc_GetElement c heap env req result
  = {| grpc_status := errors.Cancelled "Client was cancelled.";
       grpc_result := result; grpc_client := c; grpc_throttles := heap;
       grpc_effects := no_effects |}.
Proof. intros Hc. unfold Grpc_GetElement. now rewrite Hc. Qed.

(** The call of a client that is not cancelled, when every component of
    the response parses (or there is none to parse): the handle is
    unregistered and the status is that of the RPC. *)
Lemma Grpc_GetElement_completed (c : GrpcDataTransferClient)
    (heap : list ByteBlockChecker) (env : Env)
    (req : GetElementRequest) (result : GetElementResult) :
  grpc_cancelled_ c = false ->
  (forall ps, element_case (snd (stub_GetElement env)) = kUncompressed ps ->
              fst (parse_components ps (components result)) = true) ->
  let o := Grpc_GetElement c heap env req result in
  active_contexts_ (grpc_client o) = active_contexts_ c ∖ {[ ctx env ]} /\
  grpc_status o
  = (if grpc_ok (fst (stub_GetElement env)) then Status_OK
     else WrapError "Failed to get element" (fst (stub_GetElement env))) /\
  end_of_sequence (grpc_result o)
  = resp_end_of_sequence (snd (stub_GetElement env)) /\
  skip (grpc_result o) = resp_skip_task (snd (stub_GetElement env)) /\
  rpcs (grpc_effects o) = [(ctx env, req)].
Proof.
  intros Hc Hparse. cbv zeta. unfold Grpc_GetElement. rewrite Hc.
  destruct (stub_GetElement env) as [s resp]. cbn [fst snd] in *.
  destruct (throttle_step _ _ _ _ _) as [heap1 slept1].
  destruct (element_case resp) as [z | ps |] eqn:Hcase.
  - cbn [grpc_client grpc_status grpc_result active_contexts_
         end_of_sequence skip grpc_effects rpcs].
    split; [apply erase_insert | auto].
  - specialize (Hparse ps eq_refl).
    cbn [components]. destruct (parse_components ps (components result))
      as [parsed out]. cbn [fst] in Hparse. subst parsed.
    cbn [grpc_client grpc_status grpc_result active_contexts_
         end_of_sequence skip grpc_effects rpcs].
    split; [apply erase_insert | auto].
  - cbn [grpc_client grpc_status grpc_result active_contexts_
         end_of_sequence skip grpc_effects rpcs].
    split; [apply erase_insert | auto].
Qed.

(** The call of a client that is not cancelled, when a component of the
    response does not parse. *)
Lemma Grpc_GetElement_parse_failed (c : GrpcDataTransferClient)
    (heap : list ByteBlockChecker) (env : Env)
    (req : GetElementRequest) (result : GetElementResult)
    (ps : list TensorProto) :
  grpc_cancelled_ c = false ->
  element_case (snd (stub_GetElement env)) = kUncompressed ps ->
  fst (parse_components ps (components result)) = false ->
  let o := Grpc_GetElement c heap env req result in
  grpc_status o = errors.Internal "Failed to parse tensor." /\
  active_contexts_ (grpc_client o) = {[ ctx env ]} ∪ active_contexts_ c /\
  grpc_cancelled_ (grpc_client o) = false /\
  components (grpc_result o) = snd (parse_components ps (components result)) /\
  end_of_sequence (grpc_result o)
  = resp_end_of_sequence (snd (stub_GetElement env)) /\
  skip (grpc_result o) = resp_skip_task (snd (stub_GetElement env)) /\
  rpcs (grpc_effects o) = [(ctx env, req)].
Proof.
  intros Hc Hcase Hparse. cbv zeta. unfold Grpc_GetElement. rewrite Hc.
  destruct (stub_GetElement env) as [s resp]. cbn [fst snd] in *.
  destruct (throttle_step _ _ _ _ _) as [heap1 slept1].
  rewrite Hcase. cbn [components].
  destruct (parse_components ps (components result)) as [parsed out].
  cbn [fst snd] in *. subst parsed. cbn. auto 10.
Qed.

(** C1.  The early return taken when a component does not parse leaves
    [GetElement] without erasing the call context it inserted: the call
    completes with an Internal error and its handle is still in the
    active-call set, where a later [TryCancel] reaches it. *)
Theorem GetElement_parse_failure_keeps_handle (c : GrpcDataTransferClient)
    (heap : list ByteBlockChecker) (env : Env)
    (req : GetElementRequest) (result : GetElementResult)
    (ps : list TensorProto) :
  grpc_cancelled_ c = false ->
  element_case (snd (stub_GetElement env)) = kUncompressed ps ->
  fst (parse_components ps (components result)) = false ->
  let o := Grpc_GetElement c heap env req result in
  grpc_status o = errors.Internal "Failed to parse tensor." /\
  ctx env ∈ active_contexts_ (grpc_client o) /\
  ctx env ∈ snd (Grpc_TryCancel (grpc_client o)).
Proof.
  intros Hc Hcase Hparse.
  destruct (Grpc_GetElement_parse_failed c heap env req result ps Hc Hcase
              Hparse) as (Hst & Hact & _).
  cbv zeta. split; [exact Hst |].
  unfold Grpc_TryCancel. cbn [snd]. rewrite Hact.
  split; apply elem_of_union_l, elem_of_singleton; reflexivity.
Qed.

(** C2, amended.  When a component of an uncompressed response does not
    parse, the call returns the Internal error and nothing is discarded:
    the caller's result holds what it held before the call, then every
    component parsed before the failure, then the entry made for the
    component that did not parse. *)
Theorem GetElement_parse_failure_keeps_components
    (c : GrpcDataTransferClient) (heap : list ByteBlockChecker) (env : Env)
    (req : GetElementRequest) (result : GetElementResult)
    (good : list TensorProto) (bad : TensorProto) (rest : list TensorProto) :
  grpc_cancelled_ c = false ->
  element_case (snd (stub_GetElement env)) = kUncompressed (good ++ bad :: rest) ->
  Forall (fun p => fst (FromProto Tensor_default p) = true) good ->
  fst (FromProto Tensor_default bad) = false ->
  let o := Grpc_GetElement c heap env req result in
  grpc_status o = errors.Internal "Failed to parse tensor." /\
  components (grpc_result o)
  = components result
      ++ map (fun p => snd (FromProto Tensor_default p)) good
      ++ [snd (FromProto Tensor_default bad)].
Proof.
  intros Hc Hcase Hgood Hbad.
  pose proof (parse_components_failure good bad rest (components result)
                Hgood Hbad) as Hp.
  destruct (Grpc_GetElement_parse_failed c heap env req result
              (good ++ bad :: rest) Hc Hcase) as (Hst & _ & _ & Hcomp & _).
  { now rewrite Hp. }
  cbv zeta. split; [exact Hst |]. now rewrite Hcomp, Hp.
Qed.

(** A component that does not parse makes the loop fail, and components
    that all parse make it succeed. *)
Lemma parse_components_exists_fails (ps : list TensorProto)
    (out : list Tensor) :
  Exists (fun p => fst (FromProto Tensor_default p) = false) ps ->
  fst (parse_components ps out) = false.
Proof.
  intros Hex. revert out.
  induction Hex as [p ps Hp | p ps _ IH]; intros out; cbn [parse_components].
  - destruct (FromProto Tensor_default p) as [parsed t].
    cbn [fst] in Hp. subst parsed. reflexivity.
  - destruct (FromProto Tensor_default p) as [[] t]; [apply IH | reflexivity].
Qed.

Lemma parse_components_forall_succeeds (ps : list TensorProto)
    (out : list Tensor) :
  Forall (fun p => fst (FromProto Tensor_default p) = true) ps ->
  fst (parse_components ps out) = true.
Proof.
  intros Hall. now rewrite (parse_components_all_parsed ps out Hall).
Qed.

(** What a call that is not rejected as cancelled leaves in the
    components of the caller's result when nothing fails to parse. *)
Lemma Grpc_GetElement_components (c : GrpcDataTransferClient)
    (heap : list ByteBlockChecker) (env : Env)
    (req : GetElementRequest) (result : GetElementResult) :
  grpc_cancelled_ c = false ->
  let resp := snd (stub_GetElement env) in
  let o := Grpc_GetElement c heap env req result in
  (forall z, element_case resp = kCompressed z ->
     components (grpc_result o) = components result ++ [Tensor_variant z]) /\
  (forall ps, element_case resp = kUncompressed ps ->
     Forall (fun p => fst (FromProto Tensor_default p) = true) ps ->
     components (grpc_result o)
     = components result
         ++ map (fun p => snd (FromProto Tensor_default p)) ps) /\
  (element_case resp = ELEMENT_NOT_SET ->
     components (grpc_result o) = components result).
Proof.
  intros Hc. cbv zeta. unfold Grpc_GetElement. rewrite Hc.
  destruct (stub_GetElement env) as [s resp]. cbn [fst snd].
  destruct (throttle_step _ _ _ _ _) as [heap1 slept1].
  split; [| split].
  - intros z Hz. rewrite Hz. reflexivity.
  - intros ps Hps Hall. rewrite Hps. cbn [components].
    rewrite (parse_components_all_parsed ps (components result) Hall).
    reflexivity.
  - intros Hn. rewrite Hn. reflexivity.
Qed.

(** C10.  A call that is not rejected as cancelled issues the RPC, writes
    the end-of-sequence and skip flags of the response into the caller's
    result and parses the payload before it looks at the RPC status.  So a
    component that [FromProto] does not parse makes the call return
    Internal whatever the RPC status was, a failed RPC included; and when
    the RPC failed and the response parses (every component is parsed by
    [FromProto], or the element is compressed or not set), the wrapped
    transport error is returned with the flags of the result already
    overwritten and the parsed payload already in its components. *)
Theorem GetElement_decodes_before_status (c : GrpcDataTransferClient)
    (heap : list ByteBlockChecker) (env : Env)
    (req : GetElementRequest) (result : GetElementResult) :
  grpc_cancelled_ c = false ->
  let s := fst (stub_GetElement env) in
  let resp := snd (stub_GetElement env) in
  let o := Grpc_GetElement c heap env req result in
  rpcs (grpc_effects o) = [(ctx env, req)] /\
  end_of_sequence (grpc_result o) = resp_end_of_sequence resp /\
  skip (grpc_result o) = resp_skip_task resp /\
  (forall ps, element_case resp = kUncompressed ps ->
     Exists (fun p => fst (FromProto Tensor_default p) = false) ps ->
     grpc_status o = errors.Internal "Failed to parse tensor.") /\
  (forall ps, element_case resp = kUncompressed ps ->
     Forall (fun p => fst (FromProto Tensor_default p) = true) ps ->
     grpc_ok s = false ->
     grpc_status o = WrapError "Failed to get element" s /\
     components (grpc_result o)
     = components result
         ++ map (fun p => snd (FromProto Tensor_default p)) ps) /\
  (forall z, element_case resp = kCompressed z ->
     grpc_ok s = false ->
     grpc_status o = WrapError "Failed to get element" s /\
     components (grpc_result o) = components result ++ [Tensor_variant z]) /\
  (element_case resp = ELEMENT_NOT_SET ->
     grpc_ok s = false ->
     grpc_status o = WrapError "Failed to get element" s /\
     components (grpc_result o) = components result).
Proof.
  intros Hc. cbv zeta.
  destruct (Grpc_GetElement_components c heap env req result Hc)
    as (Hcz & Hcu & Hcn). cbv zeta in Hcz, Hcu, Hcn.
  assert (Hdec :
    (forall ps, element_case (snd (stub_GetElement env)) = kUncompressed ps ->
                fst (parse_components ps (components result)) = true) \/
    (exists ps, element_case (snd (stub_GetElement env)) = kUncompressed ps /\
                fst (parse_components ps (components result)) = false)).
  { destruct (element_case (snd (stub_GetElement env))) as [z | ps |].
    - left. intros ps Hps. discriminate Hps.
    - destruct (fst (parse_components ps (components result))) eqn:Hp.
      + left. intros ps' Hps'. injection Hps' as <-. exact Hp.
      + right. exists ps. now split.
    - left. intros ps Hps. discriminate Hps. }
  destruct Hdec as [Hall | (ps & Hcase & Hfail)].
  - destruct (Grpc_GetElement_completed c heap env req result Hc Hall)
      as (_ & Hst & Heos & Hskip & Hrpc).
    repeat (split; [assumption |]). split; [| split; [| split]].
    + intros ps Hcase Hex.
      pose proof (Hall ps Hcase) as Hparsed.
      rewrite (parse_components_exists_fails ps (components result) Hex)
        in Hparsed.
      discriminate Hparsed.
    + intros ps Hcase Hok Hs. split; [now rewrite Hst, Hs | now apply Hcu].
    + intros z Hcase Hs. split; [now rewrite Hst, Hs | now apply Hcz].
    + intros Hcase Hs. split; [now rewrite Hst, Hs | now apply Hcn].
  - destruct (Grpc_GetElement_parse_failed c heap env req result ps Hc Hcase
                Hfail) as (Hst & _ & _ & _ & Heos & Hskip & Hrpc).
    repeat (split; [assumption |]). split; [| split; [| split]].
    + intros _ _ _. exact Hst.
    + intros ps' Hcase' Hok _. rewrite Hcase in Hcase'.
      injection Hcase' as <-.
      rewrite (parse_components_forall_succeeds ps (components result) Hok)
        in Hfail.
      discriminate Hfail.
    + intros z Hcase' _. rewrite Hcase in Hcase'. discriminate Hcase'.
    + intros Hcase' _. rewrite Hcase in Hcase'. discriminate Hcase'.
Qed.

(** ** Cancellation *)

Lemma GetElement_cancelled (c : DataTransferClient)
    (heap : list ByteBlockChecker) (env : Env)
    (req : GetElementRequest) (result : GetElementResult) :
  is_cancelled c = true ->
  let o := GetElement c heap env req result in
  code (out_status o) = CANCELLED /\
  out_effects o = no_effects /\
  out_result o = result /\
  out_client o = c /\
  out_throttles o = heap.
Proof.
  intros Hc. cbv zeta. destruct c as [g | l]; cbn [is_cancelled] in Hc;
    cbn [GetElement].
  - rewrite Grpc_GetElement_cancelled by assumption. cbn. auto.
  - unfold Local_GetElement, VerifyClientIsNotCancelled. rewrite Hc. cbn. auto.
Qed.

Lemma TryCancel_cancels (c : DataTransferClient) :
  is_cancelled (fst (TryCancel c)) = true.
Proof. destruct c as [g | l]; reflexivity. Qed.

(** No call brings a cancelled client back. *)
Lemma call_keeps_cancelled (st : ClientState) (k : Call) :
  is_cancelled (fst st) = true -> is_cancelled (fst (call st k)) = true.
Proof.
  intros Hc. destruct k as [env req result |]; cbn [call fst].
  - destruct (GetElement_cancelled (fst st) (snd st) env req result Hc)
      as (_ & _ & _ & Hcl & _).
    cbv zeta in Hcl. now rewrite Hcl.
  - apply TryCancel_cancels.
Qed.

Lemma calls_keep_cancelled (ks : list Call) (st : ClientState) :
  is_cancelled (fst st) = true -> is_cancelled (fst (calls ks st)) = true.
Proof.
  revert st. induction ks as [| k ks IH]; intros st Hc; cbn [calls fold_left].
  - exact Hc.
  - apply IH, call_keeps_cancelled, Hc.
Qed.

(** C6.  Once [TryCancel] has been called on a transfer client, gRPC or
    local, every later [GetElement], whatever calls were made in between
    and whatever the request, returns a Cancelled error at once: no RPC is
    issued, no worker is invoked, nothing sleeps, and the caller's result,
    the client and the throttles are left as they were. *)
Theorem GetElement_after_TryCancel (c : DataTransferClient)
    (heap : list ByteBlockChecker) (ks : list Call) (env : Env)
    (req : GetElementRequest) (result : GetElementResult) :
  let st := calls ks (fst (TryCancel c), heap) in
  let o := GetElement (fst st) (snd st) env req result in
  code (out_status o) = CANCELLED /\
  out_effects o = no_effects /\
  out_result o = result /\
  out_client o = fst st /\
  out_throttles o = snd st.
Proof.
  cbv zeta. apply GetElement_cancelled, calls_keep_cancelled.
  cbn [fst]. apply TryCancel_cancels.
Qed.

(** ** The local client *)

Lemma append_assoc (a b c : string) : (a +:+ b) +:+ c = a +:+ b +:+ c.
Proof.
  induction a as [| ch a IH]; [reflexivity |].
  change ((String ch a +:+ b) +:+ c) with (String ch ((a +:+ b) +:+ c)).
  now rewrite IH.
Qed.

(** C8.  A local client that is not cancelled, asked for an element while
    the registry has no live worker for its address, fails with a
    Cancelled error whose message contains the worker address and the
    task id of the request; it does not succeed and invokes no worker. *)
Theorem Local_GetElement_no_worker (l : LocalDataTransferClient) (env : Env)
    (req : GetElementRequest) (result : GetElementResult) :
  local_cancelled_ l = false ->
  LocalWorkers_Get env (worker_address_ l) = None ->
  let o := Local_GetElement l env req result in
  code (local_status o) = CANCELLED /\
  ok (local_status o) = false /\
  contains (error_message (local_status o)) (worker_address_ l) /\
  contains (error_message (local_status o)) (pretty (task_id req)) /\
  local_effects o = no_effects /\
  local_result o = result.
Proof.
  intros Hc Hget. cbv zeta.
  unfold Local_GetElement, VerifyClientIsNotCancelled, GetWorker.
  rewrite Hc, Hget. cbn [ok Status_OK code Code_eqb negb local_status
                         local_effects local_result errors.Cancelled
                         error_message].
  repeat split.
  - eexists _, _. reflexivity.
  - exists ("Local worker at address " +:+ worker_address_ l +:+
            " is no longer available; cancel request for task "), ".".
    now rewrite !append_assoc.
Qed.

(** ** The throttle of the process *)

(** One run of the gRPC factory either constructs nothing and leaves the
    process alone, or finds no throttle yet, a positive bandwidth, and
    constructs the throttle of the process. *)
Lemma Grpc_factory_cases (config : Config) (proc : Process) :
  let o := Grpc_factory config proc in
  (factory_made o = [] /\ factory_process o = proc) \/
  (g_byte_block_checker proc = None /\
   0 < config_max_bandwidth_bps config /\
   factory_made o = [config_max_bandwidth_bps config] /\
   factory_process o =
   {| throttles :=
        throttles proc ++
        [ByteBlockChecker_new (config_max_bandwidth_bps config)];
      g_byte_block_checker := Some (length (throttles proc)) |}).
Proof.
  cbv zeta. unfold Grpc_factory.
  destruct (CreateClientCredentials (config_protocol config)) as [st cred].
  destruct (negb (ok st)); [left; now split |].
  destruct (g_byte_block_checker proc) as [l |] eqn:Hg; [left; now split |].
  destruct (Z.ltb_spec 0 (config_max_bandwidth_bps config)) as [Hpos | Hle];
    [right | left]; cbn; auto.
Qed.

Lemma create_clients_throttled (configs : list Config) (proc : Process) :
  g_byte_block_checker proc <> None ->
  create_clients configs proc = (proc, []).
Proof.
  intros Hg. induction configs as [| config configs IH];
    cbn [create_clients]; [reflexivity |].
  destruct (Grpc_factory_cases config proc) as [[Hm Hp] | (Hn & _)];
    [| contradiction].
  cbv zeta in Hm, Hp. now rewrite Hp, Hm, IH.
Qed.

Lemma create_clients_cases (configs : list Config) (proc : Process) :
  g_byte_block_checker proc = None ->
  create_clients configs proc = (proc, []) \/
  exists b : Z,
    0 < b /\
    create_clients configs proc =
    ({| throttles := throttles proc ++ [ByteBlockChecker_new b];
        g_byte_block_checker := Some (length (throttles proc)) |}, [b]).
Proof.
  intros Hg. induction configs as [| config configs IH];
    cbn [create_clients]; [now left |].
  destruct (Grpc_factory_cases config proc)
    as [[Hm Hp] | (_ & Hpos & Hm & Hp)]; cbv zeta in Hm, Hp; rewrite Hp, Hm.
  - destruct IH as [-> | (b & Hb & ->)]; [now left |].
    right. exists b. now split.
  - right. exists (config_max_bandwidth_bps config). split; [exact Hpos |].
    now rewrite create_clients_throttled by (cbn; congruence).
Qed.

(** A client without a throttle does no bandwidth accounting. *)
Lemma Grpc_GetElement_unthrottled (c : GrpcDataTransferClient)
    (heap : list ByteBlockChecker) (env : Env)
    (req : GetElementRequest) (result : GetElementResult) :
  byte_block_checker_ c = None ->
  let o := Grpc_GetElement c heap env req result in
  sleeps (grpc_effects o) = [] /\ grpc_throttles o = heap.
Proof.
  intros Hb. cbv zeta. unfold Grpc_GetElement. rewrite Hb.
  destruct (grpc_cancelled_ c); [now split |].
  destruct (stub_GetElement env) as [s resp]. cbn [throttle_step].
  destruct (element_case resp) as [z | ps |]; [now split | | now split].
  destruct (parse_components ps _) as [[] out]; now split.
Qed.

(** C9.  Whatever gRPC clients a process creates, one after the other, it
    constructs at most one throttle, hence at most one for each positive
    bandwidth, and only for a positive bandwidth.  A creation with a
    bandwidth of zero or less constructs no throttle and leaves the
    process as it was, and the client it yields has no throttle unless the
    process already had one.  A client without a throttle never sleeps
    for bandwidth accounting and touches no throttle. *)
Theorem throttle_constructed_at_most_once (configs : list Config) :
  let r := create_clients configs Process_init in
  (length (snd r) <= 1)%nat /\
  throttles (fst r) = map ByteBlockChecker_new (snd r) /\
  Forall (fun b => 0 < b) (snd r) /\
  (forall b : Z, (count_occ Z.eq_dec (snd r) b <= 1)%nat) /\
  (forall (config : Config) (proc : Process),
     config_max_bandwidth_bps config <= 0 ->
     factory_made (Grpc_factory config proc) = [] /\
     factory_process (Grpc_factory config proc) = proc /\
     (g_byte_block_checker proc = None ->
      forall g, factory_out (Grpc_factory config proc) = Some g ->
                byte_block_checker_ g = None)) /\
  (forall (c : GrpcDataTransferClient) (heap : list ByteBlockChecker)
          (env : Env) (req : GetElementRequest) (result : GetElementResult),
     byte_block_checker_ c = None ->
     sleeps (grpc_effects (Grpc_GetElement c heap env req result)) = [] /\
     grpc_throttles (Grpc_GetElement c heap env req result) = heap).
Proof.
  cbv zeta.
  assert (Hlen : (length (snd (create_clients configs Process_init)) <= 1)%nat
                 /\ throttles (fst (create_clients configs Process_init))
                    = map ByteBlockChecker_new
                        (snd (create_clients configs Process_init))
                 /\ Forall (fun b => 0 < b)
                      (snd (create_clients configs Process_init))).
  { destruct (create_clients_cases configs Process_init eq_refl)
      as [-> | (b & Hb & ->)]; cbn.
    - repeat split; [lia | constructor].
    - repeat split; [lia | now repeat constructor]. }
  destruct Hlen as (Hlen & Hheap & Hpos).
  split; [exact Hlen |]. split; [exact Hheap |]. split; [exact Hpos |].
  split; [| split].
  - intros b. etransitivity; [apply count_occ_bound | exact Hlen].
  - intros config proc Hle.
    destruct (Grpc_factory_cases config proc)
      as [[Hm Hp] | (_ & Hpos' & _)]; [| lia].
    cbv zeta in Hm, Hp. split; [exact Hm |]. split; [exact Hp |].
    intros Hg g. revert Hp. unfold Grpc_factory.
    destruct (CreateClientCredentials (config_protocol config)) as [st cred].
    destruct (negb (ok st)); [discriminate |].
    rewrite Hg.
    destruct (Z.ltb_spec 0 (config_max_bandwidth_bps config)); [lia |].
    cbn. intros _ Hout. injection Hout as <-. exact Hg.
  - intros c heap env req result Hb.
    now apply Grpc_GetElement_unthrottled.
Qed.

(** ** The session *)

(** C3.  On a session that has never been initialized, [TryCancel] is not
    a no-op: [client_] is still null and [client_->TryCancel()] goes
    through it.  [TryCancel] returns exactly on the sessions that hold a
    client. *)
Theorem TryCancel_before_initialization
    (address protocol transfer_protocol : string) (max_bandwidth_bps : Z) :
  Session_TryCancel
    (DataServiceWorkerClient_new address protocol transfer_protocol
       max_bandwidth_bps)
  = NullDereference /\
  (forall s : DataServiceWorkerClient,
     Session_TryCancel s = NullDereference <-> client_ s = None).
Proof.
  split; [reflexivity |].
  intros s. unfold Session_TryCancel.
  destruct (client_ s) as [c |]; [| now split].
  destruct (TryCancel c) as [c' cancelled]. split; discriminate.
Qed.

(** On a session that holds a client, [TryCancel] returns and has
    cancelled the client. *)
Lemma TryCancel_initialized (s : DataServiceWorkerClient)
    (c : DataTransferClient) :
  client_ s = Some c ->
  exists s' cancelled,
    Session_TryCancel s = Returns (s', cancelled) /\
    client_ s' = Some (fst (TryCancel c)).
Proof.
  intros Hc. unfold Session_TryCancel. rewrite Hc.
  destruct (TryCancel c) as [c' cancelled]. eexists _, _. now split.
Qed.

(** A factory that reports success has written a client. *)
Lemma Build_ok_out (name : string) (config : Config) (proc : Process) :
  ok (factory_status (Build name config proc)) = true ->
  is_Some (factory_out (Build name config proc)).
Proof.
  unfold Build.
  destruct (find _ registered_factories) as [[n [|]] |]; cbn.
  - unfold Grpc_factory.
    destruct (CreateClientCredentials (config_protocol config)) as [st cred].
    destruct (ok st) eqn:Hst; cbn [negb].
    + destruct (match g_byte_block_checker proc with
                | Some _ => _ | None => _ end) as [proc1 made].
      cbn. eauto.
    + cbn. rewrite Hst. discriminate.
  - eauto.
  - discriminate.
Qed.

(** [GetElement] makes sure of the client that [TryCancel] goes through
    unchecked: a session never meets a null client in [GetElement]. *)
Lemma Session_GetElement_returns (s : DataServiceWorkerClient)
    (proc : Process) (env : Env) (req : GetElementRequest)
    (result : GetElementResult) :
  exists o, Session_GetElement s proc env req result = Returns o.
Proof.
  unfold Session_GetElement, EnsureInitialized.
  destruct (client_ s) as [c |] eqn:Hc.
  - cbn. rewrite Hc. eauto.
  - cbv zeta.
    destruct (ok (factory_status (Build _ _ proc))) eqn:Hok; cbn [negb].
    + cbn [ok Status_OK code Code_eqb negb client_].
      destruct (Build_ok_out _ _ _ Hok) as [c' Hout]. rewrite Hout. eauto.
    + rewrite Hok. cbn [negb]. eauto.
Qed.

(** C7, amended.  When the configured protocol is the gRPC protocol and
    the registry has a live worker for the address, the local protocol is
    selected; in every other case the configured protocol is selected
    unchanged.  So the local protocol is selected if and only if either
    that condition holds or the configured protocol is the local protocol
    itself. *)
Theorem GetDataTransferProtocol_selection (s : DataServiceWorkerClient)
    (get : string -> option DataServiceWorkerImpl) :
  let substituted :=
    transfer_protocol_ s = kGrpcTransferProtocol /\ is_Some (get (address_ s)) in
  (substituted -> GetDataTransferProtocol s get = kLocalTransferProtocol) /\
  (~ substituted -> GetDataTransferProtocol s get = transfer_protocol_ s) /\
  (GetDataTransferProtocol s get = kLocalTransferProtocol <->
   substituted \/ transfer_protocol_ s = kLocalTransferProtocol).
Proof.
  cbv zeta. unfold GetDataTransferProtocol.
  destruct (String.eqb_spec (transfer_protocol_ s) kGrpcTransferProtocol)
    as [Heq | Hne];
    destruct (bool_decide_reflect (is_Some (get (address_ s)))) as [Hw | Hw];
    cbn [andb]; repeat split; try tauto; try congruence; intuition congruence.
Qed.

End Properties.

(** * The properties at concrete inputs *)

Lemma GetElement_parse_failure_keeps_handle_witness :
  let o := @Grpc_GetElement sample sample_client []
             (sample_env grpc_OK sample_malformed) sample_request
             sample_result in
  grpc_status o = errors.Internal "Failed to parse tensor." /\
  7%nat ∈ active_contexts_ (grpc_client o) /\
  7%nat ∈ snd (Grpc_TryCancel (grpc_client o)).
Proof.
  apply (@GetElement_parse_failure_keeps_handle sample sample_client []
           (sample_env grpc_OK sample_malformed) sample_request sample_result
           [Some 1; None; Some 3]); reflexivity.
Defined.

(** A call that fails on the second of three components returns the
    Internal error with two entries in the caller's result: the component
    parsed before the failure and the entry made for the failing one. *)
Lemma GetElement_returns_partial_components :
  let o := @Grpc_GetElement sample sample_client []
             (sample_env grpc_OK sample_malformed) sample_request
             sample_result in
  grpc_status o = errors.Internal "Failed to parse tensor." /\
  components sample_result = [] /\
  components (grpc_result o) = [Dense 1; Empty].
Proof. cbv zeta. repeat split. Qed.

Lemma GetElement_parse_failure_keeps_components_witness :
  let o := @Grpc_GetElement sample sample_client []
             (sample_env grpc_OK sample_malformed) sample_request
             sample_result in
  grpc_status o = errors.Internal "Failed to parse tensor." /\
  components (grpc_result o) = [Dense 1; Empty].
Proof.
  apply (@GetElement_parse_failure_keeps_components sample sample_client []
           (sample_env grpc_OK sample_malformed) sample_request sample_result
           [Some 1] None [Some 3]);
    [reflexivity | reflexivity | repeat constructor | reflexivity].
Defined.

Lemma GetElement_decodes_before_status_witness :
  grpc_status (@Grpc_GetElement sample sample_client []
                 (sample_env grpc_UNAVAILABLE sample_malformed)
                 sample_request sample_result)
  = errors.Internal "Failed to parse tensor." /\
  grpc_status (@Grpc_GetElement sample sample_client []
                 (sample_env grpc_UNAVAILABLE sample_end)
                 sample_request sample_result)
  = mkStatus UNAVAILABLE "Failed to get element: Socket closed" /\
  end_of_sequence (grpc_result (@Grpc_GetElement sample sample_client []
                                  (sample_env grpc_UNAVAILABLE sample_end)
                                  sample_request sample_result))
  = true.
Proof.
  split; [| split].
  - destruct (@GetElement_decodes_before_status sample sample_client []
                (sample_env grpc_UNAVAILABLE sample_malformed) sample_request
                sample_result eq_refl) as (_ & _ & _ & H & _).
    apply (H [Some 1; None; Some 3]); [reflexivity |].
    apply Exists_cons_tl, Exists_cons_hd. reflexivity.
  - destruct (@GetElement_decodes_before_status sample sample_client []
                (sample_env grpc_UNAVAILABLE sample_end) sample_request
                sample_result eq_refl) as (_ & _ & _ & _ & _ & _ & H).
    apply H; reflexivity.
  - destruct (@GetElement_decodes_before_status sample sample_client []
                (sample_env grpc_UNAVAILABLE sample_end) sample_request
                sample_result eq_refl) as (_ & H & _).
    exact H.
Defined.

Lemma Local_GetElement_no_worker_witness :
  let l := {| worker_address_ := "localhost:5000";
              local_cancelled_ := false |} in
  let o := @Local_GetElement sample l (sample_env grpc_OK sample_end)
             sample_request sample_result in
  code (local_status o) = CANCELLED /\
  ok (local_status o) = false /\
  contains (error_message (local_status o)) "localhost:5000" /\
  contains (error_message (local_status o)) "42" /\
  local_effects o = no_effects /\
  local_result o = sample_result.
Proof.
  apply (@Local_GetElement_no_worker sample
           {| worker_address_ := "localhost:5000"; local_cancelled_ := false |}
           (sample_env grpc_OK sample_end) sample_request sample_result);
    reflexivity.
Defined.

Lemma throttle_constructed_at_most_once_witness :
  let configs := [mkConfig "grpc" "a:1" 0; mkConfig "grpc" "b:2" 5;
                  mkConfig "grpc" "c:3" 7; mkConfig "grpc" "d:4" 5] in
  (length (snd (@create_clients sample configs Process_init)) <= 1)%nat /\
  factory_made (@Grpc_factory sample (mkConfig "grpc" "a:1" 0) Process_init)
  = [].
Proof.
  cbv zeta.
  destruct (@throttle_constructed_at_most_once sample
              [mkConfig "grpc" "a:1" 0; mkConfig "grpc" "b:2" 5;
               mkConfig "grpc" "c:3" 7; mkConfig "grpc" "d:4" 5])
    as (Hlen & _ & _ & _ & Hzero & _).
  split; [exact Hlen |].
  apply (Hzero (mkConfig "grpc" "a:1" 0) Process_init). cbn. lia.
Defined.

(** A session configured with the local protocol selects the local
    protocol although the configured protocol is not the gRPC protocol and
    the registry has no worker for the address. *)
Lemma local_selected_without_substitution :
  let s := DataServiceWorkerClient_new "localhost:5000" "grpc" "local" 0 in
  let get : string -> option (@DataServiceWorkerImpl sample) :=
    fun _ => None in
  @GetDataTransferProtocol sample s get = @kLocalTransferProtocol sample /\
  transfer_protocol_ s <> @kGrpcTransferProtocol sample /\
  get (address_ s) = None /\
  ~ (@GetDataTransferProtocol sample s get = @kLocalTransferProtocol sample
     <-> transfer_protocol_ s = @kGrpcTransferProtocol sample
         /\ is_Some (get (address_ s))).
Proof.
  cbv zeta. split; [reflexivity |]. split; [discriminate |].
  split; [reflexivity |].
  intros [H _]. destruct (H eq_refl) as [Hgrpc _]. discriminate Hgrpc.
Qed.

Lemma GetDataTransferProtocol_selection_witness :
  let worker : @DataServiceWorkerImpl sample :=
    fun _ result => (Status_OK, result) in
  @GetDataTransferProtocol sample
    (DataServiceWorkerClient_new "localhost:5000" "grpc" "grpc" 0)
    (fun _ => Some worker)
  = "local" /\
  @GetDataTransferProtocol sample
    (DataServiceWorkerClient_new "localhost:5000" "grpc" "rdma" 0)
    (fun _ => Some worker)
  = "rdma".
Proof.
  cbv zeta. split.
  - destruct (@GetDataTransferProtocol_selection sample
                (DataServiceWorkerClient_new "localhost:5000" "grpc" "grpc" 0)
                (fun _ => Some (fun _ result => (Status_OK, result))))
      as (H & _).
    apply H. split; [reflexivity | eexists; reflexivity].
  - destruct (@GetDataTransferProtocol_selection sample
                (DataServiceWorkerClient_new "localhost:5000" "grpc" "rdma" 0)
                (fun _ => Some (fun _ result => (Status_OK, result))))
      as (_ & H & _).
    apply H. intros [Hgrpc _]. discriminate Hgrpc.
Defined.

(** The task id is printed in decimal. *)
Example pretty_task_id :
  pretty (-5) = "-5" /\ pretty 0 = "0" /\ pretty 42 = "42".
Proof. vm_compute. auto. Qed.

(** The expected time is truncated: 16 * 10^12 / 3 and 8 / 3. *)
Example expected_sleep_time_truncates :
  expected_sleep_time 2000000 3 = 5333333333333 /\
  expected_sleep_time 1 3000000 = 2.
Proof. vm_compute. auto. Qed.

(** * Further properties of the throttle *)

Lemma to_int64_range (d : Double.double) : Int64.in_range (Double.to_int64 d).
Proof.
  unfold Double.to_int64, Int64.in_range.
  destruct (Double.trunc d) as [z |].
  - destruct (Z.leb_spec Int64.min_signed z);
      destruct (Z.leb_spec z Int64.max_signed); cbn [andb];
      unfold Int64.min_signed, Int64.max_signed in *; lia.
  - unfold Int64.min_signed, Int64.max_signed. lia.
Qed.

Lemma expected_sleep_time_range (sum bw : Z) :
  Int64.in_range (expected_sleep_time sum bw).
Proof. apply to_int64_range. Qed.

(** One call keeps the configuration of the throttle and leaves the sum
    at zero or below the block size. *)
Lemma AddAndSleepCheck_after (c : ByteBlockChecker) (bytes t1 t2 : Z) :
  let c' := checker_after (AddAndSleepCheck c bytes t1 t2) in
  check_block_size_ c' = check_block_size_ c /\
  max_bandwidth_bps_ c' = max_bandwidth_bps_ c /\
  Int64.in_range (sum_total_bytes_ c') /\
  (sum_total_bytes_ c' = 0 \/ sum_total_bytes_ c' < check_block_size_ c).
Proof.
  cbv zeta.
  destruct (Z.le_gt_cases (check_block_size_ c)
              (Int64.add (sum_total_bytes_ c) bytes)) as [Hle | Hlt].
  - rewrite AddAndSleepCheck_reached by assumption.
    cbn [checker_after sum_total_bytes_ check_block_size_ max_bandwidth_bps_].
    split; [reflexivity |]. split; [reflexivity |].
    split; [| now left].
    unfold Int64.in_range, Int64.min_signed, Int64.max_signed. lia.
  - rewrite AddAndSleepCheck_below by assumption.
    cbn [checker_after sum_total_bytes_ check_block_size_ max_bandwidth_bps_].
    split; [reflexivity |]. split; [reflexivity |].
    split; [apply wrap64_range | now right].
Qed.

(** X1.  With a positive block size, after any non-empty sequence of
    calls the running sum is below the block size and within [int64_t],
    and the block size and the bandwidth are the ones the throttle
    started with. *)
Theorem AddAndSleepChecks_below_block (c : ByteBlockChecker)
    (ts : list Transfer) :
  0 < check_block_size_ c ->
  ts <> [] ->
  let c' := fst (AddAndSleepChecks c ts) in
  sum_total_bytes_ c' < check_block_size_ c /\
  Int64.in_range (sum_total_bytes_ c') /\
  check_block_size_ c' = check_block_size_ c /\
  max_bandwidth_bps_ c' = max_bandwidth_bps_ c.
Proof.
  intros Hpos Hne. cbv zeta. revert c Hpos.
  induction ts as [| [[bytes t1] t2] ts' IH]; [congruence |].
  intros c Hpos. cbn [AddAndSleepChecks].
  destruct (AddAndSleepCheck_after c bytes t1 t2) as (Hb & Hm & Hr & Hs).
  cbv zeta in Hb, Hm, Hr, Hs.
  destruct ts' as [| t ts''].
  - cbn [AddAndSleepChecks fst].
    split; [lia |]. split; [exact Hr |]. split; assumption.
  - specialize (IH ltac:(discriminate)
                  (checker_after (AddAndSleepCheck c bytes t1 t2))
                  ltac:(lia)).
    destruct (AddAndSleepChecks
                (checker_after (AddAndSleepCheck c bytes t1 t2)) (t :: ts''))
      as [c' ds].
    cbn [fst] in *. destruct IH as (H1 & H2 & H3 & H4).
    split; [lia |]. split; [exact H2 |]. split; congruence.
Qed.

(** X2.  Transfers that keep the running sum below the block size are
    never throttled: no call sleeps, the sum grows by the bytes of all of
    them and the time of the last reset is not touched. *)
Theorem AddAndSleepChecks_accumulate (c : ByteBlockChecker)
    (ts : list Transfer) :
  stays_below (sum_total_bytes_ c) (check_block_size_ c) ts ->
  AddAndSleepChecks c ts
  = ({| sum_total_bytes_ := sum_total_bytes_ c + total_bytes ts;
        prev_call_time_micros_ := prev_call_time_micros_ c;
        check_block_size_ := check_block_size_ c;
        max_bandwidth_bps_ := max_bandwidth_bps_ c |}, []).
Proof.
  revert c.
  induction ts as [| [[bytes t1] t2] ts' IH]; intros c Hs.
  - cbn. rewrite Z.add_0_r. now destruct c.
  - cbn [stays_below] in Hs. destruct Hs as (Hr & Hlt & Hs).
    cbn [AddAndSleepChecks].
    assert (Ha : Int64.add (sum_total_bytes_ c) bytes
                 = sum_total_bytes_ c + bytes)
      by (unfold Int64.add; now apply wrap64_in_range).
    rewrite AddAndSleepCheck_below by (rewrite Ha; exact Hlt).
    cbn [checker_after slept]. rewrite Ha.
    rewrite IH by exact Hs.
    cbn [sum_total_bytes_ prev_call_time_micros_ check_block_size_
         max_bandwidth_bps_ total_bytes fold_right fst].
    fold (total_bytes ts'). now rewrite Z.add_assoc.
Qed.

(** X3.  When a call sleeps and the clock has not gone backwards since the
    last reset, the sleep is the expected time minus the elapsed time, is
    positive and is at most the expected time; and a call sleeps only when
    the sum it has just increased has reached the block size. *)
Theorem AddAndSleepCheck_sleep_bounds (c : ByteBlockChecker)
    (bytes t1 t2 d : Z) :
  slept (AddAndSleepCheck c bytes t1 t2) = Some d ->
  0 <= Int64.sub t1 (prev_call_time_micros_ c) ->
  let sum := Int64.add (sum_total_bytes_ c) bytes in
  let expected := expected_sleep_time sum (max_bandwidth_bps_ c) in
  check_block_size_ c <= sum /\
  d = expected - Int64.sub t1 (prev_call_time_micros_ c) /\
  0 < d <= expected /\
  Int64.in_range d.
Proof.
  intros Hd Hel. cbv zeta.
  destruct (Z.le_gt_cases (check_block_size_ c)
              (Int64.add (sum_total_bytes_ c) bytes)) as [Hle | Hlt].
  2: { rewrite AddAndSleepCheck_below in Hd by assumption. discriminate Hd. }
  rewrite AddAndSleepCheck_reached in Hd by assumption.
  cbv zeta in Hd. cbn [slept] in Hd.
  pose proof (expected_sleep_time_range
                (Int64.add (sum_total_bytes_ c) bytes) (max_bandwidth_bps_ c))
    as He.
  destruct (Z.ltb_spec (Int64.sub t1 (prev_call_time_micros_ c))
              (expected_sleep_time (Int64.add (sum_total_bytes_ c) bytes)
                 (max_bandwidth_bps_ c))) as [Hlt |]; [| discriminate Hd].
  injection Hd as <-.
  assert (Hw : Int64.sub
                 (expected_sleep_time (Int64.add (sum_total_bytes_ c) bytes)
                    (max_bandwidth_bps_ c))
                 (Int64.sub t1 (prev_call_time_micros_ c))
               = expected_sleep_time (Int64.add (sum_total_bytes_ c) bytes)
                   (max_bandwidth_bps_ c)
                 - Int64.sub t1 (prev_call_time_micros_ c)).
  { unfold Int64.sub at 1. apply wrap64_in_range.
    unfold Int64.in_range, Int64.min_signed, Int64.max_signed in *. lia. }
  rewrite Hw.
  unfold Int64.in_range, Int64.min_signed, Int64.max_signed in *.
  repeat split; lia.
Qed.

Section MoreProperties.

Context `{E : Externals}.

(** * Further properties of the gRPC client *)

(** [GetElement] changes neither the throttle pointer nor the cancelled
    flag of the client. *)
Lemma Grpc_GetElement_keeps_config (c : GrpcDataTransferClient)
    (heap : list ByteBlockChecker) (env : Env)
    (req : GetElementRequest) (result : GetElementResult) :
  let o := Grpc_GetElement c heap env req result in
  byte_block_checker_ (grpc_client o) = byte_block_checker_ c /\
  grpc_cancelled_ (grpc_client o) = grpc_cancelled_ c.
Proof.
  cbv zeta. unfold Grpc_GetElement.
  destruct (grpc_cancelled_ c) eqn:Hc; [now split |].
  destruct (stub_GetElement env) as [s resp].
  destruct (throttle_step _ _ _ _ _) as [heap1 slept1].
  destruct (element_case resp) as [z | ps |]; [now split | | now split].
  destruct (parse_components ps _) as [[] out]; now split.
Qed.

(** What the throttle step does for a client that has a throttle. *)
Lemma Grpc_GetElement_throttle_step (c : GrpcDataTransferClient)
    (heap : list ByteBlockChecker) (env : Env)
    (req : GetElementRequest) (result : GetElementResult) :
  grpc_cancelled_ c = false ->
  let o := Grpc_GetElement c heap env req result in
  (grpc_throttles o, sleeps (grpc_effects o))
  = throttle_step (byte_block_checker_ c) heap
      (Int64.wrap64 (resp_ByteSizeLong (snd (stub_GetElement env))
                     + req_ByteSizeLong req))
      (now1 env) (now2 env).
Proof.
  intros Hc. cbv zeta. unfold Grpc_GetElement. rewrite Hc.
  destruct (stub_GetElement env) as [s resp]. cbn [snd].
  destruct (throttle_step _ _ _ _ _) as [heap1 slept1].
  destruct (element_case resp) as [z | ps |]; [reflexivity | | reflexivity].
  destruct (parse_components ps _) as [[] out]; reflexivity.
Qed.

(** X4.  A call that completes (every component of the response parses)
    leaves the client exactly as it found it when its context handle was
    not in the active-call set before: the insertion and the erasure of
    the handle cancel out, and neither the throttle pointer nor the
    cancelled flag is touched.  In any case the handle is not in the set
    afterwards. *)
Theorem GetElement_completed_restores_client (c : GrpcDataTransferClient)
    (heap : list ByteBlockChecker) (env : Env)
    (req : GetElementRequest) (result : GetElementResult) :
  grpc_cancelled_ c = false ->
  (forall ps, element_case (snd (stub_GetElement env)) = kUncompressed ps ->
              fst (parse_components ps (components result)) = true) ->
  let o := Grpc_GetElement c heap env req result in
  (ctx env ∉ active_contexts_ (grpc_client o)) /\
  ((ctx env ∉ active_contexts_ c) -> grpc_client o = c).
Proof.
  intros Hc Hparse. cbv zeta.
  destruct (Grpc_GetElement_completed c heap env req result Hc Hparse)
    as (Hact & _).
  destruct (Grpc_GetElement_keeps_config c heap env req result) as (Hb & Hf).
  cbv zeta in Hact, Hb, Hf. split.
  - rewrite Hact. apply erase_not_elem.
  - intros Hfresh.
    assert (Hsame : active_contexts_ c ∖ {[ ctx env ]} = active_contexts_ c).
    { apply set_eq. intros x.
      rewrite elem_of_difference, elem_of_singleton.
      split; [tauto |]. intros Hx. split; [exact Hx |].
      intros ->. contradiction. }
    destruct (grpc_client (Grpc_GetElement c heap env req result))
      as [a b f].
    destruct c as [a0 b0 f0]. cbn in *. congruence.
Qed.

(** X5.  A call that completes appends to the components the caller's
    result already holds and never clears them: one variant tensor for a
    compressed element, one tensor per component, in order, for an
    uncompressed element whose components all parse, and nothing when the
    response has no element.  Its status is OK when the RPC succeeded. *)
Theorem GetElement_appends_components (c : GrpcDataTransferClient)
    (heap : list ByteBlockChecker) (env : Env)
    (req : GetElementRequest) (result : GetElementResult) :
  grpc_cancelled_ c = false ->
  let s := fst (stub_GetElement env) in
  let resp := snd (stub_GetElement env) in
  let o := Grpc_GetElement c heap env req result in
  (forall z, element_case resp = kCompressed z ->
     components (grpc_result o) = components result ++ [Tensor_variant z] /\
     (grpc_ok s = true -> grpc_status o = Status_OK)) /\
  (forall ps, element_case resp = kUncompressed ps ->
     Forall (fun p => fst (FromProto Tensor_default p) = true) ps ->
     components (grpc_result o)
     = components result
         ++ map (fun p => snd (FromProto Tensor_default p)) ps /\
     (grpc_ok s = true -> grpc_status o = Status_OK)) /\
  (element_case resp = ELEMENT_NOT_SET ->
     components (grpc_result o) = components result /\
     (grpc_ok s = true -> grpc_status o = Status_OK)).
Proof.
  intros Hc. cbv zeta. unfold Grpc_GetElement. rewrite Hc.
  destruct (stub_GetElement env) as [s resp]. cbn [fst snd].
  destruct (throttle_step _ _ _ _ _) as [heap1 slept1].
  split; [| split].
  - intros z Hz. rewrite Hz. cbn. split; [reflexivity |]. now intros ->.
  - intros ps Hps Hall. rewrite Hps. cbn [components].
    rewrite (parse_components_all_parsed ps (components result) Hall).
    cbn. split; [reflexivity |]. now intros ->.
  - intros Hn. rewrite Hn. cbn. split; [reflexivity |]. now intros ->.
Qed.

(** X6.  A client that has a throttle charges it on every call that is
    not rejected as cancelled, whatever the RPC status and whether or not
    the response parses: the throttle the client points to becomes what
    [AddAndSleepCheck] makes of it for the size of the response plus the
    size of the request, the call sleeps what that check sleeps, and no
    other throttle is touched. *)
Theorem GetElement_charges_throttle (c : GrpcDataTransferClient)
    (heap : list ByteBlockChecker) (env : Env)
    (req : GetElementRequest) (result : GetElementResult)
    (l : nat) (t : ByteBlockChecker) :
  grpc_cancelled_ c = false ->
  byte_block_checker_ c = Some l ->
  heap !! l = Some t ->
  let o := Grpc_GetElement c heap env req result in
  let a := AddAndSleepCheck t
             (Int64.wrap64 (resp_ByteSizeLong (snd (stub_GetElement env))
                            + req_ByteSizeLong req))
             (now1 env) (now2 env) in
  grpc_throttles o !! l = Some (checker_after a) /\
  (forall l', l' <> l -> grpc_throttles o !! l' = heap !! l') /\
  length (grpc_throttles o) = length heap /\
  sleeps (grpc_effects o) = match slept a with Some d => [d] | None => [] end.
Proof.
  intros Hc Hb Hl. cbv zeta.
  pose proof (Grpc_GetElement_throttle_step c heap env req result Hc) as Hstep.
  cbv zeta in Hstep. rewrite Hb in Hstep. cbn [throttle_step] in Hstep.
  rewrite Hl in Hstep. injection Hstep as Hh Hs. rewrite Hh, Hs.
  split; [| split; [| split]].
  - apply list_lookup_insert_eq. eapply lookup_lt_Some, Hl.
  - intros l' Hne. apply list_lookup_insert_ne. congruence.
  - apply length_insert.
  - reflexivity.
Qed.

(** X7.  The throttle is shared: two clients that point to the same
    throttle add their transfers to the same sum.  While the sum stays
    below the block size, after a call on the first client and a call on
    the second the throttle holds the bytes of both and neither call has
    slept. *)
Theorem GetElement_shared_throttle (c1 c2 : GrpcDataTransferClient)
    (heap : list ByteBlockChecker) (env1 env2 : Env)
    (req1 req2 : GetElementRequest) (result1 result2 : GetElementResult)
    (l : nat) (t : ByteBlockChecker) :
  grpc_cancelled_ c1 = false -> grpc_cancelled_ c2 = false ->
  byte_block_checker_ c1 = Some l -> byte_block_checker_ c2 = Some l ->
  heap !! l = Some t ->
  let b1 := Int64.wrap64 (resp_ByteSizeLong (snd (stub_GetElement env1))
                          + req_ByteSizeLong req1) in
  let b2 := Int64.wrap64 (resp_ByteSizeLong (snd (stub_GetElement env2))
                          + req_ByteSizeLong req2) in
  stays_below (sum_total_bytes_ t) (check_block_size_ t)
    [(b1, now1 env1, now2 env1); (b2, now1 env2, now2 env2)] ->
  let o1 := Grpc_GetElement c1 heap env1 req1 result1 in
  let o2 := Grpc_GetElement c2 (grpc_throttles o1) env2 req2 result2 in
  grpc_throttles o2 !! l
  = Some {| sum_total_bytes_ := sum_total_bytes_ t + b1 + b2;
            prev_call_time_micros_ := prev_call_time_micros_ t;
            check_block_size_ := check_block_size_ t;
            max_bandwidth_bps_ := max_bandwidth_bps_ t |} /\
  sleeps (grpc_effects o1) = [] /\ sleeps (grpc_effects o2) = [].
Proof.
  intros Hc1 Hc2 Hb1 Hb2 Hl. cbv zeta.
  pose proof (Grpc_GetElement_throttle_step c1 heap env1 req1 result1 Hc1)
    as Hs1.
  cbv zeta in Hs1.
  set (b1 := Int64.wrap64 (resp_ByteSizeLong (snd (stub_GetElement env1))
                           + req_ByteSizeLong req1)) in *.
  set (b2 := Int64.wrap64 (resp_ByteSizeLong (snd (stub_GetElement env2))
                           + req_ByteSizeLong req2)) in *.
  intros (Hr1 & Hlt1 & Hr2 & Hlt2 & _).
  assert (Ha1 : Int64.add (sum_total_bytes_ t) b1 = sum_total_bytes_ t + b1)
    by (unfold Int64.add; now apply wrap64_in_range).
  assert (Ha2 : Int64.add (sum_total_bytes_ t + b1) b2
                = sum_total_bytes_ t + b1 + b2)
    by (unfold Int64.add; now apply wrap64_in_range).
  rewrite Hb1 in Hs1. cbn [throttle_step] in Hs1. rewrite Hl in Hs1.
  rewrite AddAndSleepCheck_below in Hs1 by (rewrite Ha1; exact Hlt1).
  cbn [checker_after slept] in Hs1. rewrite Ha1 in Hs1.
  injection Hs1 as Hh1 Hsl1. rewrite Hh1.
  match goal with
  | |- context [Grpc_GetElement c2 ?h env2 req2 result2] =>
      pose proof (Grpc_GetElement_throttle_step c2 h env2 req2 result2 Hc2)
        as Hs2
  end.
  cbv zeta in Hs2. fold b2 in Hs2.
  rewrite Hb2 in Hs2. cbn [throttle_step] in Hs2.
  rewrite list_lookup_insert_eq in Hs2 by (eapply lookup_lt_Some, Hl).
  rewrite AddAndSleepCheck_below in Hs2
    by (cbn [sum_total_bytes_ check_block_size_]; rewrite Ha2; exact Hlt2).
  cbn [checker_after slept sum_total_bytes_ prev_call_time_micros_
       check_block_size_ max_bandwidth_bps_] in Hs2.
  rewrite Ha2 in Hs2.
  injection Hs2 as Hh2 Hsl2. rewrite Hh2.
  split; [| split; assumption].
  apply list_lookup_insert_eq. rewrite length_insert.
  eapply lookup_lt_Some, Hl.
Qed.

End MoreProperties.
Section FactoryAndSession.

Context `{E : Externals}.

(** * Further properties of cancellation *)

Lemma TryCancel_cancelled_id (c : DataTransferClient) :
  is_cancelled c = true -> fst (TryCancel c) = c.
Proof.
  destruct c as [[a b f] | [w f]]; cbn; intros ->; reflexivity.
Qed.

(** X8.  A cancelled transfer client is inert: after [TryCancel], no
    sequence of [GetElement] and [TryCancel] calls changes the client or
    any throttle; in particular a second [TryCancel] leaves the client as
    the first one left it. *)
Theorem cancelled_client_is_inert (c : DataTransferClient)
    (heap : list ByteBlockChecker) (ks : list Call) :
  calls ks (fst (TryCancel c), heap) = (fst (TryCancel c), heap) /\
  fst (TryCancel (fst (TryCancel c))) = fst (TryCancel c).
Proof.
  pose proof (TryCancel_cancels c) as Hc.
  split; [| now apply TryCancel_cancelled_id].
  revert Hc. generalize (fst (TryCancel c)) as c'. intros c' Hc.
  induction ks as [| k ks IH]; [reflexivity |].
  cbn [calls fold_left]. change (fold_left call ks) with (calls ks).
  assert (Hk : call (c', heap) k = (c', heap)).
  { destruct k as [env req result |]; cbn [call fst snd].
    - destruct (GetElement_cancelled c' heap env req result Hc)
        as (_ & _ & _ & Hcl & Hh).
      cbv zeta in Hcl, Hh. now rewrite Hcl, Hh.
    - now rewrite TryCancel_cancelled_id. }
  rewrite Hk. exact IH.
Qed.

(** * Further properties of the gRPC factory *)

Lemma Grpc_factory_made_fresh (config : Config) (proc : Process) :
  g_byte_block_checker proc = None ->
  let o := Grpc_factory config proc in
  if constructs_throttle config then
    factory_made o = [config_max_bandwidth_bps config] /\
    factory_process o
    = {| throttles :=
           throttles proc ++
           [ByteBlockChecker_new (config_max_bandwidth_bps config)];
         g_byte_block_checker := Some (length (throttles proc)) |}
  else factory_made o = [] /\ factory_process o = proc.
Proof.
  intros Hg. cbv zeta. unfold constructs_throttle, Grpc_factory.
  destruct (CreateClientCredentials (config_protocol config)) as [st cred].
  cbn [fst]. destruct (ok st); cbn [negb andb]; [| now split].
  rewrite Hg. destruct (0 <? config_max_bandwidth_bps config); now split.
Qed.

(** X9.  The throttle of the process is the one of the first creation
    whose credentials are granted and whose bandwidth is positive; the
    bandwidth of every later creation is ignored, and without such a
    creation no throttle is constructed. *)
Theorem first_positive_bandwidth_wins (configs : list Config) :
  let r := create_clients configs Process_init in
  match find constructs_throttle configs with
  | Some config =>
      snd r = [config_max_bandwidth_bps config] /\
      throttles (fst r)
      = [ByteBlockChecker_new (config_max_bandwidth_bps config)] /\
      g_byte_block_checker (fst r) = Some 0%nat
  | None => r = (Process_init, [])
  end.
Proof.
  cbv zeta. generalize (eq_refl : g_byte_block_checker Process_init = None).
  assert (Hnil : throttles Process_init = []) by reflexivity.
  revert Hnil. generalize Process_init as proc. intros proc Hnil Hg.
  induction configs as [| config configs IH]; cbn [find create_clients].
  - reflexivity.
  - pose proof (Grpc_factory_made_fresh config proc Hg) as Hf.
    cbv zeta in Hf. destruct (constructs_throttle config).
    + destruct Hf as [Hm Hp]. rewrite Hp, Hm.
      rewrite create_clients_throttled by (cbn; congruence).
      cbn. rewrite Hnil. now repeat split.
    + destruct Hf as [Hm Hp]. rewrite Hp, Hm.
      destruct (find constructs_throttle configs) as [config' |].
      * destruct (create_clients configs proc) as [proc2 made'].
        cbn [fst snd app] in *. exact IH.
      * rewrite IH. reflexivity.
Qed.

(** X10.  Two clients created one after the other share one throttle:
    when the first creation constructs the throttle, the second client,
    whatever its bandwidth, points to the same throttle, which is the one
    constructed for the bandwidth of the first, and the second creation
    constructs nothing. *)
Theorem created_clients_share_throttle (config1 config2 : Config)
    (proc : Process) :
  g_byte_block_checker proc = None ->
  constructs_throttle config1 = true ->
  ok (fst (CreateClientCredentials (config_protocol config2))) = true ->
  let o1 := Grpc_factory config1 proc in
  let o2 := Grpc_factory config2 (factory_process o1) in
  let l := length (throttles proc) in
  (byte_block_checker_ <$> factory_out o1) = Some (Some l) /\
  (byte_block_checker_ <$> factory_out o2) = Some (Some l) /\
  throttles (factory_process o2) !! l
  = Some (ByteBlockChecker_new (config_max_bandwidth_bps config1)) /\
  factory_made o2 = [] /\
  factory_process o2 = factory_process o1.
Proof.
  intros Hg H1 H2. cbv zeta.
  unfold constructs_throttle in H1. apply andb_true_iff in H1.
  destruct H1 as [Hok1 Hpos1].
  unfold Grpc_factory.
  destruct (CreateClientCredentials (config_protocol config1)) as [st1 cr1].
  destruct (CreateClientCredentials (config_protocol config2)) as [st2 cr2].
  cbn [fst] in Hok1, H2. rewrite Hok1, H2, Hg, Hpos1.
  cbn. repeat split.
  rewrite lookup_app_r by lia. now rewrite Nat.sub_diag.
Qed.

(** * Further properties of the local client *)

(** X11.  A local client that is not cancelled and finds a live worker
    for its address hands the request and the caller's result to that
    worker exactly once and returns what the worker returns; it issues no
    RPC and does not sleep. *)
Theorem Local_GetElement_delegates (l : LocalDataTransferClient) (env : Env)
    (req : GetElementRequest) (result : GetElementResult)
    (worker : DataServiceWorkerImpl) :
  local_cancelled_ l = false ->
  LocalWorkers_Get env (worker_address_ l) = Some worker ->
  let o := Local_GetElement l env req result in
  local_status o = fst (worker req result) /\
  local_result o = snd (worker req result) /\
  local_effects o = {| rpcs := []; sleeps := []; worker_calls := [req] |}.
Proof.
  intros Hc Hw. cbv zeta.
  unfold Local_GetElement, VerifyClientIsNotCancelled, GetWorker.
  rewrite Hc, Hw. cbn [ok Status_OK code Code_eqb negb].
  destruct (worker req result) as [st r]. now repeat split.
Qed.

(** X12.  A cancelled local client fails with a Cancelled error whose
    message contains its worker address, even when the registry has a
    live worker for the address: the worker is not invoked and the
    caller's result is not touched. *)
Theorem Local_GetElement_cancelled_message (l : LocalDataTransferClient)
    (env : Env) (req : GetElementRequest) (result : GetElementResult) :
  local_cancelled_ l = true ->
  let o := Local_GetElement l env req result in
  code (local_status o) = CANCELLED /\
  contains (error_message (local_status o)) (worker_address_ l) /\
  local_effects o = no_effects /\
  local_result o = result.
Proof.
  intros Hc. cbv zeta. unfold Local_GetElement, VerifyClientIsNotCancelled.
  rewrite Hc. cbn [ok code errors.Cancelled Code_eqb negb local_status
                   local_effects local_result error_message].
  split; [reflexivity |]. split; [| now split].
  eexists _, _. reflexivity.
Qed.

End FactoryAndSession.

Section Session.

Context `{E : Externals}.

(** * Further properties of the session *)

(** X13.  The transfer client of a session is created once: after an
    [EnsureInitialized] that reported success, every later
    [EnsureInitialized], whatever the registry and the process have become,
    reports success and changes neither the session nor the process, and
    constructs nothing. *)
Theorem EnsureInitialized_once (s s1 : DataServiceWorkerClient)
    (get : string -> option DataServiceWorkerImpl) (proc proc1 : Process)
    (st : Status) (made : list Z) :
  EnsureInitialized s get proc = (st, s1, proc1, made) ->
  ok st = true ->
  is_Some (client_ s1) /\
  forall (get' : string -> option DataServiceWorkerImpl) (proc' : Process),
    EnsureInitialized s1 get' proc' = (Status_OK, s1, proc', []).
Proof.
  intros Hinit Hok.
  assert (Hsome : is_Some (client_ s1)).
  { unfold EnsureInitialized in Hinit.
    destruct (client_ s) as [c |] eqn:Hc.
    - injection Hinit as _ <- _ _. rewrite Hc. eauto.
    - cbv zeta in Hinit.
      destruct (ok (factory_status (Build _ _ proc))) eqn:Hb;
        cbn [negb] in Hinit.
      + injection Hinit as _ <- _ _. cbn [client_].
        now apply Build_ok_out.
      + injection Hinit as <- _ _ _. congruence. }
  split; [exact Hsome |].
  intros get' proc'. destruct Hsome as [c Hc].
  unfold EnsureInitialized. now rewrite Hc.
Qed.

(** X14.  On a session that holds a transfer client which tracks no call
    context, [TryCancel] returns with no context to cancel, and every
    [GetElement] afterwards returns a Cancelled error without issuing an
    RPC, invoking a worker or sleeping, and leaves the caller's result,
    the session and the process as they were. *)
Theorem Session_GetElement_after_TryCancel (s : DataServiceWorkerClient)
    (c : DataTransferClient) :
  client_ s = Some c ->
  tracks_no_context c ->
  exists s',
    Session_TryCancel s = Returns (s', ∅) /\
    forall (proc : Process) (env : Env) (req : GetElementRequest)
           (result : GetElementResult),
    exists o,
      Session_GetElement s' proc env req result = Returns o /\
      code (session_status o) = CANCELLED /\
      session_effects o = no_effects /\
      session_result o = result /\
      session_after o = s' /\
      session_process o = proc.
Proof.
  intros Hc Hnone. unfold Session_TryCancel. rewrite Hc.
  pose proof (TryCancel_cancels c) as Hcan.
  assert (Hset : snd (TryCancel c) = ∅).
  { destruct c as [g | l]; cbn in *; [exact Hnone | reflexivity]. }
  destruct (TryCancel c) as [c' cancelled]. cbn [fst snd] in Hcan, Hset.
  subst cancelled.
  eexists. split; [reflexivity |].
  intros proc env req result.
  unfold Session_GetElement, EnsureInitialized. cbn [client_].
  cbn [ok Status_OK code Code_eqb negb client_].
  destruct (GetElement_cancelled c' (throttles proc) env req result Hcan)
    as (Hcode & Heff & Hres & Hcl & Hh).
  cbv zeta in Hcode, Heff, Hres, Hcl, Hh.
  eexists. split; [reflexivity |].
  cbn [session_status session_effects session_result session_after
       session_process address_ protocol_ transfer_protocol_
       session_max_bandwidth_bps_].
  rewrite Hcl, Hh. destruct proc. now repeat split.
Qed.

(** X15.  A session whose transfer client could not be built returns the
    error of [Build] from [GetElement] with the caller's result untouched
    and nothing done outside, and stays without a client, so that the next
    [GetElement] tries to build it again. *)
Theorem Session_GetElement_build_failed (s : DataServiceWorkerClient)
    (proc : Process) (env : Env) (req : GetElementRequest)
    (result : GetElementResult) :
  client_ s = None ->
  let b := Build (GetDataTransferProtocol s (LocalWorkers_Get env))
             {| config_protocol := protocol_ s; config_address := address_ s;
                config_max_bandwidth_bps := session_max_bandwidth_bps_ s |}
             proc in
  ok (factory_status b) = false ->
  Session_GetElement s proc env req result
  = Returns {| session_status := factory_status b;
               session_result := result;
               session_after := s;
               session_process := factory_process b;
               session_effects := no_effects |}.
Proof.
  intros Hc. cbv zeta. intros Hb.
  unfold Session_GetElement, EnsureInitialized. rewrite Hc. cbv zeta.
  rewrite Hb. cbn [negb]. rewrite Hb. reflexivity.
Qed.

(** X16.  A session configured with the gRPC protocol whose address has a
    live worker in the registry is served locally from its first
    [GetElement] on: with the two protocol names distinct and [Build]
    looking the factory up by name, the call creates a local client for
    the address of the session, hands the request to the worker and
    returns what it returns; no RPC is issued, nothing sleeps and no
    throttle is constructed. *)
Theorem Session_GetElement_local_worker (s : DataServiceWorkerClient)
    (proc : Process) (env : Env) (req : GetElementRequest)
    (result : GetElementResult) (worker : DataServiceWorkerImpl) :
  kGrpcTransferProtocol <> kLocalTransferProtocol ->
  client_ s = None ->
  transfer_protocol_ s = kGrpcTransferProtocol ->
  LocalWorkers_Get env (address_ s) = Some worker ->
  exists o,
    Session_GetElement s proc env req result = Returns o /\
    session_status o = fst (worker req result) /\
    session_result o = snd (worker req result) /\
    session_effects o
    = {| rpcs := []; sleeps := []; worker_calls := [req] |} /\
    client_ (session_after o)
    = Some (LocalClient {| worker_address_ := address_ s;
                           local_cancelled_ := false |}) /\
    session_process o = proc.
Proof.
  intros Hne Hc Hp Hw.
  assert (Hsel : GetDataTransferProtocol s (LocalWorkers_Get env)
                 = kLocalTransferProtocol).
  { unfold GetDataTransferProtocol. rewrite Hp, String.eqb_refl, Hw.
    reflexivity. }
  assert (Hbuild : forall config,
             Build kLocalTransferProtocol config proc
             = {| factory_status := Status_OK;
                  factory_out := Some (LocalClient (Local_factory config));
                  factory_process := proc; factory_made := [] |}).
  { intros config. unfold Build, registered_factories. cbn [find fst].
    destruct (String.eqb_spec kGrpcTransferProtocol kLocalTransferProtocol)
      as [Heq | _]; [contradiction |].
    now rewrite String.eqb_refl. }
  unfold Session_GetElement, EnsureInitialized. rewrite Hc. cbv zeta.
  rewrite Hsel, Hbuild.
  cbn [factory_status factory_out factory_process factory_made ok Status_OK
       code Code_eqb negb client_ GetElement Local_factory config_address].
  unfold Local_GetElement, VerifyClientIsNotCancelled, GetWorker.
  cbn [local_cancelled_ worker_address_ Local_factory config_address
       ok Status_OK code Code_eqb negb].
  rewrite Hw. destruct (worker req result) as [st r].
  eexists. split; [reflexivity |].
  cbn. destruct proc. now repeat split.
Qed.

End Session.

(** * The further properties at concrete inputs *)

Lemma AddAndSleepChecks_below_block_witness :
  let c' := fst (AddAndSleepChecks (sample_throttle 0)
                   [(2000000, 1000000, 17000000);
                    (500, 17000001, 17000002)]) in
  sum_total_bytes_ c' < 1000000 /\
  Int64.in_range (sum_total_bytes_ c') /\
  check_block_size_ c' = 1000000 /\
  max_bandwidth_bps_ c' = 1000000.
Proof.
  apply (AddAndSleepChecks_below_block (sample_throttle 0)
           [(2000000, 1000000, 17000000); (500, 17000001, 17000002)]);
    [reflexivity | discriminate].
Defined.

Lemma AddAndSleepChecks_accumulate_witness :
  AddAndSleepChecks (sample_throttle 0) [(300, 1, 2); (500, 3, 4)]
  = ({| sum_total_bytes_ := 800; prev_call_time_micros_ := 0;
        check_block_size_ := 1000000; max_bandwidth_bps_ := 1000000 |}, []).
Proof.
  apply (AddAndSleepChecks_accumulate (sample_throttle 0)
           [(300, 1, 2); (500, 3, 4)]).
  cbv. intuition discriminate.
Defined.

Lemma AddAndSleepCheck_sleep_bounds_witness :
  1000000 <= Int64.add 0 2000000 /\
  15000000 = expected_sleep_time (Int64.add 0 2000000) 1000000
             - Int64.sub 1000000 0 /\
  0 < 15000000 <= expected_sleep_time (Int64.add 0 2000000) 1000000 /\
  Int64.in_range 15000000.
Proof.
  apply (AddAndSleepCheck_sleep_bounds (sample_throttle 0) 2000000 1000000
           17000000 15000000);
    [vm_compute; reflexivity | vm_compute; discriminate].
Defined.

Lemma GetElement_completed_restores_client_witness :
  let o := @Grpc_GetElement sample sample_client []
             (sample_env grpc_OK sample_end) sample_request sample_result in
  (7%nat ∉ active_contexts_ (grpc_client o)) /\
  ((7%nat ∉ active_contexts_ sample_client) -> grpc_client o = sample_client).
Proof.
  apply (@GetElement_completed_restores_client sample sample_client []
           (sample_env grpc_OK sample_end) sample_request sample_result);
    [reflexivity | intros ps Hps; discriminate Hps].
Defined.

Lemma GetElement_appends_components_witness :
  components
    (grpc_result
       (@Grpc_GetElement sample sample_client []
          (sample_env grpc_OK
             {| resp_end_of_sequence := false; resp_skip_task := false;
                element_case := kUncompressed [Some 1; Some 2] |})
          sample_request
          (@mkGetElementResult sample false false [Variant "kept"])))
  = [Variant "kept"; Dense 1; Dense 2].
Proof.
  destruct (@GetElement_appends_components sample sample_client []
              (sample_env grpc_OK
                 {| resp_end_of_sequence := false; resp_skip_task := false;
                    element_case := kUncompressed [Some 1; Some 2] |})
              sample_request
              (@mkGetElementResult sample false false [Variant "kept"])
              eq_refl) as (_ & H & _).
  destruct (H [Some 1; Some 2] eq_refl) as [Hc _];
    [repeat constructor | exact Hc].
Defined.

Lemma GetElement_charges_throttle_witness :
  let o := @Grpc_GetElement sample sample_throttled_client
             [sample_throttle 0]
             (sample_env grpc_UNAVAILABLE sample_malformed) sample_request
             sample_result in
  grpc_throttles o !! 0%nat
  = Some {| sum_total_bytes_ := 36; prev_call_time_micros_ := 0;
            check_block_size_ := 1000000; max_bandwidth_bps_ := 1000000 |} /\
  sleeps (grpc_effects o) = [].
Proof.
  destruct (@GetElement_charges_throttle sample sample_throttled_client
              [sample_throttle 0]
              (sample_env grpc_UNAVAILABLE sample_malformed) sample_request
              sample_result 0%nat (sample_throttle 0) eq_refl eq_refl eq_refl)
    as (H1 & _ & _ & H2).
  split; [exact H1 | exact H2].
Defined.

Lemma GetElement_shared_throttle_witness :
  let o1 := @Grpc_GetElement sample sample_throttled_client
              [sample_throttle 0] (sample_env grpc_OK sample_end)
              sample_request sample_result in
  let o2 := @Grpc_GetElement sample sample_throttled_client
              (grpc_throttles o1) (sample_env grpc_OK sample_malformed)
              sample_request sample_result in
  grpc_throttles o2 !! 0%nat
  = Some {| sum_total_bytes_ := 0 + 12 + 36; prev_call_time_micros_ := 0;
            check_block_size_ := 1000000; max_bandwidth_bps_ := 1000000 |} /\
  sleeps (grpc_effects o1) = [] /\ sleeps (grpc_effects o2) = [].
Proof.
  apply (@GetElement_shared_throttle sample sample_throttled_client
           sample_throttled_client [sample_throttle 0]
           (sample_env grpc_OK sample_end)
           (sample_env grpc_OK sample_malformed)
           sample_request sample_request sample_result sample_result
           0%nat (sample_throttle 0) eq_refl eq_refl eq_refl eq_refl eq_refl).
  cbv. intuition discriminate.
Defined.

Lemma created_clients_share_throttle_witness :
  let o1 := @Grpc_factory sample (mkConfig "grpc" "a:1" 5) Process_init in
  let o2 := @Grpc_factory sample (mkConfig "grpc" "b:2" 0)
              (factory_process o1) in
  (byte_block_checker_ <$> factory_out o1) = Some (Some 0%nat) /\
  (byte_block_checker_ <$> factory_out o2) = Some (Some 0%nat) /\
  throttles (factory_process o2) !! 0%nat
  = Some (sample_ByteBlockChecker_new 5) /\
  factory_made o2 = [] /\
  factory_process o2 = factory_process o1.
Proof.
  apply (@created_clients_share_throttle sample (mkConfig "grpc" "a:1" 5)
           (mkConfig "grpc" "b:2" 0) Process_init); reflexivity.
Defined.

Lemma Local_GetElement_delegates_witness :
  let l := {| worker_address_ := "localhost:5000";
              local_cancelled_ := false |} in
  let o := @Local_GetElement sample l sample_env_local sample_request
             sample_result in
  local_status o = Status_OK /\
  local_result o = @mkGetElementResult sample true false [] /\
  local_effects o
  = {| rpcs := []; sleeps := []; worker_calls := [sample_request] |}.
Proof.
  apply (@Local_GetElement_delegates sample
           {| worker_address_ := "localhost:5000"; local_cancelled_ := false |}
           sample_env_local sample_request sample_result sample_worker);
    reflexivity.
Defined.

Lemma Local_GetElement_cancelled_message_witness :
  let l := {| worker_address_ := "localhost:5000";
              local_cancelled_ := true |} in
  let o := @Local_GetElement sample l sample_env_local sample_request
             sample_result in
  code (local_status o) = CANCELLED /\
  contains (error_message (local_status o)) "localhost:5000" /\
  local_effects o = no_effects /\
  local_result o = sample_result.
Proof.
  apply (@Local_GetElement_cancelled_message sample
           {| worker_address_ := "localhost:5000"; local_cancelled_ := true |}
           sample_env_local sample_request sample_result); reflexivity.
Defined.

Lemma EnsureInitialized_once_witness :
  let s1 := {| address_ := "localhost:5000"; protocol_ := "grpc";
               transfer_protocol_ := "grpc";
               session_max_bandwidth_bps_ := 0;
               client_ := Some (GrpcClient sample_client) |} in
  is_Some (client_ s1) /\
  forall (get' : string -> option (@DataServiceWorkerImpl sample))
         (proc' : Process),
    @EnsureInitialized sample s1 get' proc' = (Status_OK, s1, proc', []).
Proof.
  apply (@EnsureInitialized_once sample
           (DataServiceWorkerClient_new "localhost:5000" "grpc" "grpc" 0)
           {| address_ := "localhost:5000"; protocol_ := "grpc";
              transfer_protocol_ := "grpc";
              session_max_bandwidth_bps_ := 0;
              client_ := Some (GrpcClient sample_client) |}
           (fun _ => None) Process_init Process_init Status_OK []);
    reflexivity.
Defined.

Lemma Session_GetElement_after_TryCancel_witness :
  exists s',
    Session_TryCancel
      {| address_ := "localhost:5000"; protocol_ := "grpc";
         transfer_protocol_ := "grpc"; session_max_bandwidth_bps_ := 0;
         client_ := Some (GrpcClient sample_client) |}
    = Returns (s', ∅) /\
    forall (proc : Process) (env : @Env sample) (req : GetElementRequest)
           (result : @GetElementResult sample),
    exists o,
      Session_GetElement s' proc env req result = Returns o /\
      code (session_status o) = CANCELLED /\
      session_effects o = no_effects /\
      session_result o = result /\
      session_after o = s' /\
      session_process o = proc.
Proof.
  apply (@Session_GetElement_after_TryCancel sample
           {| address_ := "localhost:5000"; protocol_ := "grpc";
              transfer_protocol_ := "grpc"; session_max_bandwidth_bps_ := 0;
              client_ := Some (GrpcClient sample_client) |}
           (GrpcClient sample_client));
    reflexivity.
Defined.

Lemma Session_GetElement_build_failed_witness :
  let s := DataServiceWorkerClient_new "localhost:5000" "grpc" "rdma" 0 in
  @Session_GetElement sample s Process_init (sample_env grpc_OK sample_end)
    sample_request sample_result
  = Returns
      {| session_status :=
           errors.NotFound
             "No data transfer client factory has been registered for name rdma";
         session_result := sample_result;
         session_after := s;
         session_process := Process_init;
         session_effects := no_effects |}.
Proof.
  apply (@Session_GetElement_build_failed sample
           (DataServiceWorkerClient_new "localhost:5000" "grpc" "rdma" 0)
           Process_init (sample_env grpc_OK sample_end) sample_request
           sample_result); reflexivity.
Defined.

Lemma Session_GetElement_local_worker_witness :
  exists o,
    @Session_GetElement sample
      (DataServiceWorkerClient_new "localhost:5000" "grpc" "grpc" 1000000)
      Process_init sample_env_local sample_request sample_result
    = Returns o /\
    session_status o = Status_OK /\
    session_result o = @mkGetElementResult sample true false [] /\
    session_effects o
    = {| rpcs := []; sleeps := []; worker_calls := [sample_request] |} /\
    client_ (session_after o)
    = Some (LocalClient {| worker_address_ := "localhost:5000";
                           local_cancelled_ := false |}) /\
    session_process o = Process_init.
Proof.
  apply (@Session_GetElement_local_worker sample
           (DataServiceWorkerClient_new "localhost:5000" "grpc" "grpc" 1000000)
           Process_init sample_env_local sample_request sample_result
           sample_worker);
    [discriminate | reflexivity | reflexivity | reflexivity].
Defined.

Section LocalTransfers.

Context `{E : Externals}.

(** X17.  Local transfers bypass the network and the bandwidth
    accounting: whatever the state of a local client, the registry and the
    worker, a [GetElement] on it issues no RPC, does not sleep, leaves
    every throttle and the client itself as they were, and invokes a
    worker at most once, with the request it was given. *)
Theorem Local_GetElement_unthrottled (l : LocalDataTransferClient)
    (heap : list ByteBlockChecker) (env : Env)
    (req : GetElementRequest) (result : GetElementResult) :
  let o := GetElement (LocalClient l) heap env req result in
  rpcs (out_effects o) = [] /\
  sleeps (out_effects o) = [] /\
  out_throttles o = heap /\
  out_client o = LocalClient l /\
  (worker_calls (out_effects o) = [] \/ worker_calls (out_effects o) = [req]).
Proof.
  cbv zeta. cbn [GetElement out_effects out_throttles out_client].
  unfold Local_GetElement.
  destruct (negb (ok (VerifyClientIsNotCancelled l))); [cbn; auto 6 |].
  destruct (GetWorker l (LocalWorkers_Get env) req) as [err | worker];
    [cbn; auto 6 |].
  destruct (worker req result) as [st r]. cbn. auto 6.
Qed.

End LocalTransfers.
